(** * MAIA Python SDK: client, error taxonomy and request shapes

    A shallow embedding of [sdk/python/maia/errors.py], [types.py] and
    [client.py].  Python values that cross the wire are terms of [Any];
    dictionaries are stdpp finite maps keyed by strings; a [str] is its
    UTF-8 byte sequence; an [int] is a [Z]; a [float] is an IEEE 754
    binary64 datum ([spec_float]). *)

From Stdlib Require Import ZArith String Ascii List Bool.
From Stdlib Require Import DecimalString.
From Stdlib Require Import Floats.SpecFloat.
From stdpp Require Import base option gmap strings list fin_maps.

Local Open Scope string_scope.
Local Open Scope Z_scope.

(** ** Python values *)

#[local] Set Warnings "-register-all".

(** What [json.loads] can produce and what [model_dump] emits. [VNone] is
    Python's [None] (JSON [null]). *)
Inductive Any : Type :=
| VNone
| VBool (b : bool)
| VInt (n : Z)
| VFloat (x : spec_float)
| VStr (s : string)
| VList (l : list Any)
| VDict (d : gmap string Any).

(** Truthiness of a [str]: [not s] holds exactly for the empty string. *)
Definition str_truthy (s : string) : bool :=
  match s with EmptyString => false | String _ _ => true end.

(** [str(n)] / the [{n}] of an f-string, for an [int]. *)
Definition str_of_int (n : Z) : string := NilZero.string_of_int (Z.to_int n).

(** [v == s] for a [str] literal [s]: only a [str] with the same characters
    compares equal. *)
Definition eq_str (v : Any) (s : string) : bool :=
  match v with
  | VStr t => String.eqb t s
  | _ => false
  end.

(** [d.get(key, default)] and [d.get(key)]. *)
Definition dict_get_default (d : gmap string Any) (key : string) (default : Any) : Any :=
  match d !! key with
  | Some v => v
  | None => default
  end.

Definition dict_get (d : gmap string Any) (key : string) : Any :=
  dict_get_default d key VNone.

(** Truthiness of a value, as [if v:] tests it. *)
Definition truthy (v : Any) : bool :=
  match v with
  | VNone => false
  | VBool b => b
  | VInt n => negb (n =? 0)
  | VFloat (S754_zero _) => false
  | VFloat _ => true
  | VStr s => str_truthy s
  | VList l => match l with [] => false | _ :: _ => true end
  | VDict d => match size d with O => false | S _ => true end
  end.

(** [str(v)], which is what an f-string field [{v}] writes, for the
    values whose text is fixed by a short rule; [None] stands for the values
    left out here (floats, lists and dictionaries). *)
Definition format_value (v : Any) : option string :=
  match v with
  | VNone => Some "None"
  | VBool true => Some "True"
  | VBool false => Some "False"
  | VInt n => Some (str_of_int n)
  | VStr s => Some s
  | VFloat _ | VList _ | VDict _ => None
  end.

(** The floats the source names. *)
Definition float_1_0 : spec_float := S754_finite false 4503599627370496 (-52).
Definition float_30_0 : spec_float := S754_finite false 8444249301319680 (-48).

(** ** errors.py *)

Module Errors.

(** The exception classes in play: those of [errors.py], and the ones of the
    libraries the client lets through. *)
Inductive Class : Set :=
| Exception
| MAIAError
| APIError
| ValidationError
| NetworkError
| NotFoundError
| AlreadyExistsError
| ValueError
| JSONDecodeError
| AttributeError
| PydanticValidationError.

#[export] Instance Class_eq_dec : EqDecision Class.
Proof. solve_decision. Defined.

(** The base named in each [class C(B)] header. [pydantic_core.ValidationError]
    and [json.JSONDecodeError] derive from [ValueError]. *)
Definition base (c : Class) : option Class :=
  match c with
  | Exception => None
  | MAIAError => Some Exception
  | APIError => Some MAIAError
  | ValidationError => Some MAIAError
  | NetworkError => Some MAIAError
  | NotFoundError => Some APIError
  | AlreadyExistsError => Some APIError
  | ValueError => Some Exception
  | JSONDecodeError => Some ValueError
  | AttributeError => Some Exception
  | PydanticValidationError => Some ValueError
  end.

Fixpoint issubclass_upto (fuel : nat) (c target : Class) : bool :=
  if decide (c = target) then true
  else match fuel with
       | O => false
       | S fuel' =>
           match base c with
           | Some b => issubclass_upto fuel' b target
           | None => false
           end
       end.

(** No chain of bases is longer than four classes. *)
Definition issubclass (c target : Class) : bool := issubclass_upto 4 c target.

(** The attributes [APIError.__init__] stores. [code] and [details] hold
    [VNone] when not given. *)
Record APIErrorData : Type := mkAPIError {
  status_code : Z;
  message : Any;
  code : Any;
  details : Any
}.

Definition is_not_found (self : APIErrorData) : bool :=
  (status_code self =? 404) || eq_str (code self) "NOT_FOUND".

Definition is_already_exists (self : APIErrorData) : bool :=
  (status_code self =? 409) || eq_str (code self) "ALREADY_EXISTS".

Definition is_invalid_input (self : APIErrorData) : bool :=
  (status_code self =? 400) || eq_str (code self) "INVALID_INPUT".

Definition is_server_error (self : APIErrorData) : bool :=
  status_code self >=? 500.

(** What [httpx.RequestError] carries that the client reads: its [str]. *)
Record RequestError : Type := mkRequestError { request_error_str : string }.

(** Exception instances.  [ExJSONDecodeError] is the [ValueError] that
    [response.json()] raises on a body it cannot decode, with the body
    text. *)
Inductive Exn : Type :=
| ExValidationError (field : string) (msg : string)
| ExNetworkError (msg : string) (cause : option RequestError)
| ExAPIError (e : APIErrorData)
| ExNotFoundError (e : APIErrorData) (resource id : string)
| ExAlreadyExistsError (e : APIErrorData) (resource id : string)
| ExJSONDecodeError (doc : string)
| ExAttributeError (obj : Any) (attr : string)
| ExPydanticValidationError (title : string) (data : Any).

Definition NotFoundError_init (resource id : string) : Exn :=
  ExNotFoundError
    (mkAPIError 404 (VStr (resource ++ " not found: " ++ id)) (VStr "NOT_FOUND") VNone)
    resource id.

Definition AlreadyExistsError_init (resource id : string) : Exn :=
  ExAlreadyExistsError
    (mkAPIError 409 (VStr (resource ++ " already exists: " ++ id)) (VStr "ALREADY_EXISTS") VNone)
    resource id.

Definition class_of (e : Exn) : Class :=
  match e with
  | ExValidationError _ _ => ValidationError
  | ExNetworkError _ _ => NetworkError
  | ExAPIError _ => APIError
  | ExNotFoundError _ _ _ => NotFoundError
  | ExAlreadyExistsError _ _ _ => AlreadyExistsError
  | ExJSONDecodeError _ => JSONDecodeError
  | ExAttributeError _ _ => AttributeError
  | ExPydanticValidationError _ _ => PydanticValidationError
  end.

Definition isinstance (e : Exn) (c : Class) : bool := issubclass (class_of e) c.

(** The [APIError] attributes of an exception, when it is an [APIError]
    or one of its subclasses. *)
Definition api_error (e : Exn) : option APIErrorData :=
  match e with
  | ExAPIError d | ExNotFoundError d _ _ | ExAlreadyExistsError d _ _ => Some d
  | _ => None
  end.

(** [APIError.__str__]. [None] when the text is not determined here: the
    method hands back a [message] that is not a [str], or formats a value
    that [format_value] leaves out. *)
Definition __str__ (self : APIErrorData) : option string :=
  if truthy (code self) then
    match format_value (message self), format_value (code self) with
    | Some m, Some c => Some (m ++ " (" ++ c ++ ")")
    | _, _ => None
    end
  else
    match message self with
    | VStr m => Some m
    | _ => None
    end.

End Errors.

(** ** types.py *)

Module Types.

Inductive MemoryType : Set := SEMANTIC | EPISODIC | WORKING.

Definition MemoryType_value (t : MemoryType) : string :=
  match t with
  | SEMANTIC => "semantic"
  | EPISODIC => "episodic"
  | WORKING => "working"
  end.

Inductive MemorySource : Set := USER | EXTRACTED | INFERRED | IMPORTED.

Definition MemorySource_value (s : MemorySource) : string :=
  match s with
  | USER => "user"
  | EXTRACTED => "extracted"
  | INFERRED => "inferred"
  | IMPORTED => "imported"
  end.

(** The response models; [model_validate] is called on one of them. *)
Inductive Model : Set :=
| HealthResponse
| Stats
| Memory
| Namespace
| ContextResponse
| ListResponse_SearchResult
| ListResponse_Namespace
| ListResponse_Memory.

Record NamespaceConfig : Type := mkNamespaceConfig {
  nc_token_budget : option Z;
  nc_max_memories : option Z;
  nc_retention_days : option Z;
  nc_allowed_types : option (list MemoryType);
  nc_inherit_from_parent : bool;
  nc_custom_scoring : option (gmap string spec_float)
}.

(** [NamespaceConfig(...)]: a keyword the caller leaves out takes the
    default declared for its field, [None] for the optional fields and
    [False] for [inherit_from_parent]. *)
Definition NamespaceConfig_init (token_budget max_memories retention_days : option Z)
    (allowed_types : option (list MemoryType)) (inherit_from_parent : option bool)
    (custom_scoring : option (gmap string spec_float)) : NamespaceConfig :=
  mkNamespaceConfig token_budget max_memories retention_days allowed_types
    (default false inherit_from_parent) custom_scoring.

Record CreateMemoryInput : Type := mkCreateMemoryInput {
  cm_namespace : string;
  cm_content : string;
  cm_type : option MemoryType;
  cm_metadata : option (gmap string Any);
  cm_tags : option (list string);
  cm_confidence : option spec_float;
  cm_source : option MemorySource
}.

Record UpdateMemoryInput : Type := mkUpdateMemoryInput {
  um_content : option string;
  um_metadata : option (gmap string Any);
  um_tags : option (list string);
  um_confidence : option spec_float
}.

Record SearchMemoriesInput : Type := mkSearchMemoriesInput {
  sm_query : option string;
  sm_namespace : option string;
  sm_types : option (list MemoryType);
  sm_tags : option (list string);
  sm_limit : option Z;
  sm_offset : option Z
}.

(** [SearchMemoriesInput()]: every field takes its default, [None]. *)
Definition SearchMemoriesInput_default : SearchMemoriesInput :=
  mkSearchMemoriesInput None None None None None None.

Record CreateNamespaceInput : Type := mkCreateNamespaceInput {
  cn_name : string;
  cn_parent : option string;
  cn_template : option string;
  cn_config : option NamespaceConfig
}.

Record UpdateNamespaceInput : Type := mkUpdateNamespaceInput {
  un_config : NamespaceConfig
}.

Record ListOptions : Type := mkListOptions {
  lo_limit : option Z;
  lo_offset : option Z
}.

Record GetContextInput : Type := mkGetContextInput {
  gc_query : string;
  gc_namespace : option string;
  gc_token_budget : option Z;
  gc_system_prompt : option string;
  gc_include_scores : option bool;
  gc_min_score : option spec_float
}.

(** *** [model_dump(exclude_none=True)]

    The dump walks the fields in declaration order and writes a key for each
    field whose value is not [None]; a nested model is dumped the same way. *)

Definition put (key : string) (v : option Any) (d : gmap string Any) : gmap string Any :=
  match v with
  | Some x => <[key := x]> d
  | None => d
  end.

Definition dump_types (ts : list MemoryType) : Any :=
  VList (map (fun t => VStr (MemoryType_value t)) ts).

Definition dump_tags (ts : list string) : Any := VList (map VStr ts).

Definition dump_NamespaceConfig (c : NamespaceConfig) : gmap string Any :=
  put "custom_scoring" ((fun m => VDict (VFloat <$> m)) <$> nc_custom_scoring c)
  (put "inherit_from_parent" (Some (VBool (nc_inherit_from_parent c)))
  (put "allowed_types" (dump_types <$> nc_allowed_types c)
  (put "retention_days" (VInt <$> nc_retention_days c)
  (put "max_memories" (VInt <$> nc_max_memories c)
  (put "token_budget" (VInt <$> nc_token_budget c) ∅))))).

Definition dump_CreateMemoryInput (i : CreateMemoryInput) : gmap string Any :=
  put "source" ((fun s => VStr (MemorySource_value s)) <$> cm_source i)
  (put "confidence" (VFloat <$> cm_confidence i)
  (put "tags" (dump_tags <$> cm_tags i)
  (put "metadata" (VDict <$> cm_metadata i)
  (put "type" ((fun t => VStr (MemoryType_value t)) <$> cm_type i)
  (put "content" (Some (VStr (cm_content i)))
  (put "namespace" (Some (VStr (cm_namespace i))) ∅)))))).

Definition dump_UpdateMemoryInput (i : UpdateMemoryInput) : gmap string Any :=
  put "confidence" (VFloat <$> um_confidence i)
  (put "tags" (dump_tags <$> um_tags i)
  (put "metadata" (VDict <$> um_metadata i)
  (put "content" (VStr <$> um_content i) ∅))).

Definition dump_SearchMemoriesInput (i : SearchMemoriesInput) : gmap string Any :=
  put "offset" (VInt <$> sm_offset i)
  (put "limit" (VInt <$> sm_limit i)
  (put "tags" (dump_tags <$> sm_tags i)
  (put "types" (dump_types <$> sm_types i)
  (put "namespace" (VStr <$> sm_namespace i)
  (put "query" (VStr <$> sm_query i) ∅))))).

Definition dump_CreateNamespaceInput (i : CreateNamespaceInput) : gmap string Any :=
  put "config" ((fun c => VDict (dump_NamespaceConfig c)) <$> cn_config i)
  (put "template" (VStr <$> cn_template i)
  (put "parent" (VStr <$> cn_parent i)
  (put "name" (Some (VStr (cn_name i))) ∅))).

Definition dump_UpdateNamespaceInput (i : UpdateNamespaceInput) : gmap string Any :=
  put "config" (Some (VDict (dump_NamespaceConfig (un_config i)))) ∅.

Definition dump_GetContextInput (i : GetContextInput) : gmap string Any :=
  put "min_score" (VFloat <$> gc_min_score i)
  (put "include_scores" (VBool <$> gc_include_scores i)
  (put "system_prompt" (VStr <$> gc_system_prompt i)
  (put "token_budget" (VInt <$> gc_token_budget i)
  (put "namespace" (VStr <$> gc_namespace i)
  (put "query" (Some (VStr (gc_query i))) ∅))))).

End Types.

(** ** Library functions the client calls *)

Module Urllib.

(** [urllib.parse.quote(string, safe)]: the UTF-8 bytes of [string], each
    kept when it is an unreserved character (letters, digits, [_.-~]) or
    listed in [safe], and written [%XX] (upper-case hexadecimal) otherwise. *)

Definition always_safe (c : ascii) : bool :=
  let n := N_of_ascii c in
  ((65 <=? n) && (n <=? 90) || (97 <=? n) && (n <=? 122) || (48 <=? n) && (n <=? 57)
   || (n =? 95) || (n =? 46) || (n =? 45) || (n =? 126))%N.

Fixpoint mem_char (c : ascii) (chars : string) : bool :=
  match chars with
  | EmptyString => false
  | String d rest => if Ascii.eqb c d then true else mem_char c rest
  end.

Definition hex_digit (n : N) : ascii :=
  (if n <? 10 then ascii_of_N (48 + n) else ascii_of_N (55 + n))%N.

Definition quote_byte (safe : string) (c : ascii) : string :=
  if always_safe c || mem_char c safe then String c EmptyString
  else String "%" (String (hex_digit (N_of_ascii c / 16))
                  (String (hex_digit (N_of_ascii c mod 16)) EmptyString)).

Fixpoint quote (s : string) (safe : string) : string :=
  match s with
  | EmptyString => EmptyString
  | String c rest => quote_byte safe c ++ quote rest safe
  end.

(** [urllib.parse.unquote], on the same byte strings: the inverse reading,
    used to state that [quote] loses nothing. *)
Definition hex_value (c : ascii) : option N :=
  let n := N_of_ascii c in
  (if (48 <=? n) && (n <=? 57) then Some (n - 48)
   else if (65 <=? n) && (n <=? 70) then Some (n - 55)
   else if (97 <=? n) && (n <=? 102) then Some (n - 87)
   else None)%N.

Fixpoint unquote (s : string) : string :=
  match s with
  | EmptyString => EmptyString
  | String c rest =>
      match c, rest with
      | "%"%char, String h (String l rest') =>
          match hex_value h, hex_value l with
          | Some a, Some b => String (ascii_of_N (16 * a + b)) (unquote rest')
          | _, _ => String c (unquote rest)
          end
      | _, _ => String c (unquote rest)
      end
  end.

End Urllib.

Module Str.

(** [s.rstrip(chars)]: [s] without its longest suffix made of characters of
    [chars]. *)
Fixpoint rstrip (s : string) (chars : string) : string :=
  match s with
  | EmptyString => EmptyString
  | String c rest =>
      match rstrip rest chars with
      | EmptyString => if Urllib.mem_char c chars then EmptyString else String c EmptyString
      | kept => String c kept
      end
  end.

(** [s.endswith(c)] for a single character. *)
Fixpoint ends_with_char (s : string) (c : ascii) : bool :=
  match s with
  | EmptyString => false
  | String d EmptyString => Ascii.eqb d c
  | String _ rest => ends_with_char rest c
  end.

(** [c * n]. *)
Fixpoint repeat_char (c : ascii) (n : nat) : string :=
  match n with
  | O => EmptyString
  | S n' => String c (repeat_char c n')
  end.

End Str.

(** ** The HTTP transport (httpx) *)

Module Http.

(** An [httpx.Client] / [httpx.AsyncClient] as configured by the
    constructor. *)
Record Client : Type := mkClient {
  client_base_url : string;
  client_timeout : spec_float;
  client_headers : gmap string string
}.

(** One call [client.request(method, path, json=..., params=...)]. *)
Record Request : Type := mkRequest {
  req_client : Client;
  req_method : string;
  req_path : string;
  req_json : option Any;
  req_params : option (gmap string Any)
}.

(** What the client reads of an [httpx.Response]: [status_code], [content]
    (the body bytes), [text] (the body decoded) and the outcome of [json()],
    [None] standing for the [ValueError] it raises on a body that is not
    valid JSON. *)
Record Response : Type := mkResponse {
  status_code : Z;
  content : string;
  text : string;
  json : option Any
}.


(** The network and the server: what a request meets, given the requests
    already made. A [RequestError] means no response was received.  These
    are the two outcomes [_request] handles; an exception of another class
    out of [client.request] (a body that cannot be serialized, a malformed
    URL) has no handler there and is not an outcome here. *)
Definition Transport : Type :=
  list Request -> Request -> Errors.RequestError + Response.

End Http.

(** ** Computations that may raise and may call the transport *)

Module IO.

Import Http.

(** A computation runs against a transport and the log of requests made so
    far; it ends by raising or by returning, with the log extended by the
    requests it made. *)
Definition IO (A : Type) : Type :=
  Transport -> list Request -> (Errors.Exn + A) * list Request.

Definition ret {A} (x : A) : IO A := fun _ log => (inr x, log).

Definition raise {A} (e : Errors.Exn) : IO A := fun _ log => (inl e, log).

Definition bind {A B} (m : IO A) (k : A -> IO B) : IO B :=
  fun tr log =>
    match m tr log with
    | (inl e, log') => (inl e, log')
    | (inr x, log') => k x tr log'
    end.

(** Raise or return what a pure library call did. *)
Definition lift {A} (r : Errors.Exn + A) : IO A :=
  match r with
  | inl e => raise e
  | inr x => ret x
  end.

(** [client.request(...)]: the request goes out once and is logged; the
    outcome is the transport's. *)
Definition request (client : Client) (method path : string)
    (json : option Any) (params : option (gmap string Any))
    : IO (Errors.RequestError + Response) :=
  fun tr log =>
    let req := mkRequest client method path json params in
    (inr (tr log req), (log ++ [req])%list).

(** The outcome of a run and the requests it added to an empty log. *)
Definition outcome {A} (m : IO A) (tr : Transport) : Errors.Exn + A := fst (m tr []).
Definition requests {A} (m : IO A) (tr : Transport) : list Request := snd (m tr []).

End IO.

Declare Scope io_scope.
Delimit Scope io_scope with io.
Notation "x <- m ;; k" := (IO.bind m (fun x => k))
  (at level 100, m at next level, right associativity) : io_scope.

(** The operations of the public surface, as a caller invokes them. *)
Inductive Operation : Type :=
| Health
| Ready
| GetStats
| CreateMemory (input : Types.CreateMemoryInput)
| GetMemory (id : string)
| UpdateMemory (id : string) (input : Types.UpdateMemoryInput)
| DeleteMemory (id : string)
| SearchMemories (input : option Types.SearchMemoriesInput)
| CreateNamespace (input : Types.CreateNamespaceInput)
| GetNamespace (id_or_name : string)
| UpdateNamespace (id : string) (input : Types.UpdateNamespaceInput)
| DeleteNamespace (id : string)
| ListNamespaces (options : option Types.ListOptions)
| ListNamespaceMemories (namespace : string) (options : option Types.ListOptions)
| GetContext (input : Types.GetContextInput)
| Remember (namespace content : string)
| Recall (query : string) (namespace : option string) (token_budget : option Z)
         (system_prompt : option string) (min_score : option spec_float)
         (include_scores : option bool)
| Forget (id : string).

(** Truthiness of an optional [int]: [None] and [0] are falsy. *)
Definition int_truthy (n : option Z) : bool :=
  match n with
  | Some v => negb (v =? 0)
  | None => false
  end.

(** [params or None]. *)
Definition dict_or_None (params : gmap string Any) : option (gmap string Any) :=
  if decide (params = ∅) then None else Some params.

Definition DEFAULT_BASE_URL : string := "http://localhost:8080".
Definition DEFAULT_TIMEOUT : spec_float := float_30_0.

(** ** client.py: [MAIAClient] *)

Module MAIAClient.

Import Errors Types IO.
Local Open Scope io_scope.

Record t : Type := mkMAIAClient {
  base_url : string;
  _client : Http.Client
}.

(** [headers or {}]. *)
Definition headers_or_empty (headers : option (gmap string string)) : gmap string string :=
  match headers with
  | Some h => h
  | None => ∅
  end.

Definition __init__ (base_url : string) (timeout : spec_float)
    (headers : option (gmap string string)) : t :=
  let base_url := Str.rstrip base_url "/" in
  mkMAIAClient base_url (Http.mkClient base_url timeout (headers_or_empty headers)).

Section Methods.

(** pydantic's [Model.model_validate(data)]: the instance, or the
    validation error it raises. *)
Variable model_validate : Model -> Any -> Exn + Any.

Variable self : t.

Definition _request (method path : string) (json : option Any)
    (params : option (gmap string Any)) : IO Any :=
  sent <- request (_client self) method path json params ;;
  match sent with
  | inl e => raise (ExNetworkError ("Request failed: " ++ request_error_str e) (Some e))
  | inr response =>
      if Http.status_code response >=? 400 then
        match Http.json response with
        | Some (VDict data) =>
            raise (ExAPIError (mkAPIError
              (Http.status_code response)
              (dict_get_default data "error"
                 (VStr ("HTTP " ++ str_of_int (Http.status_code response))))
              (dict_get data "code")
              (dict_get data "details")))
        | Some data => raise (ExAttributeError data "get")
        | None =>
            raise (ExAPIError (mkAPIError
              (Http.status_code response)
              (VStr (if str_truthy (Http.text response) then Http.text response
                     else "HTTP " ++ str_of_int (Http.status_code response)))
              VNone VNone))
        end
      else if str_truthy (Http.content response) then
        match Http.json response with
        | Some data => ret data
        | None => raise (ExJSONDecodeError (Http.text response))
        end
      else ret VNone
  end.

Definition health : IO Any :=
  data <- _request "GET" "/health" None None ;;
  lift (model_validate HealthResponse data).

Definition ready : IO Any :=
  _ <- _request "GET" "/ready" None None ;;
  ret VNone.

Definition stats : IO Any :=
  data <- _request "GET" "/v1/stats" None None ;;
  lift (model_validate Stats data).

Definition create_memory (input : CreateMemoryInput) : IO Any :=
  if negb (str_truthy (cm_namespace input)) then
    raise (ExValidationError "namespace" "namespace is required")
  else if negb (str_truthy (cm_content input)) then
    raise (ExValidationError "content" "content is required")
  else
    data <- _request "POST" "/v1/memories"
              (Some (VDict (dump_CreateMemoryInput input))) None ;;
    lift (model_validate Memory data).

Definition get_memory (id : string) : IO Any :=
  if negb (str_truthy id) then raise (ExValidationError "id" "id is required")
  else
    data <- _request "GET" ("/v1/memories/" ++ Urllib.quote id "") None None ;;
    lift (model_validate Memory data).

Definition update_memory (id : string) (input : UpdateMemoryInput) : IO Any :=
  if negb (str_truthy id) then raise (ExValidationError "id" "id is required")
  else
    data <- _request "PUT" ("/v1/memories/" ++ Urllib.quote id "")
              (Some (VDict (dump_UpdateMemoryInput input))) None ;;
    lift (model_validate Memory data).

Definition delete_memory (id : string) : IO Any :=
  if negb (str_truthy id) then raise (ExValidationError "id" "id is required")
  else
    _ <- _request "DELETE" ("/v1/memories/" ++ Urllib.quote id "") None None ;;
    ret VNone.

Definition search_memories (input : option SearchMemoriesInput) : IO Any :=
  let input := match input with
               | None => SearchMemoriesInput_default
               | Some i => i
               end in
  data <- _request "POST" "/v1/memories/search"
            (Some (VDict (dump_SearchMemoriesInput input))) None ;;
  lift (model_validate ListResponse_SearchResult data).

Definition create_namespace (input : CreateNamespaceInput) : IO Any :=
  if negb (str_truthy (cn_name input)) then
    raise (ExValidationError "name" "name is required")
  else
    data <- _request "POST" "/v1/namespaces"
              (Some (VDict (dump_CreateNamespaceInput input))) None ;;
    lift (model_validate Namespace data).

Definition get_namespace (id_or_name : string) : IO Any :=
  if negb (str_truthy id_or_name) then
    raise (ExValidationError "id_or_name" "id or name is required")
  else
    data <- _request "GET" ("/v1/namespaces/" ++ Urllib.quote id_or_name "") None None ;;
    lift (model_validate Namespace data).

Definition update_namespace (id : string) (input : UpdateNamespaceInput) : IO Any :=
  if negb (str_truthy id) then raise (ExValidationError "id" "id is required")
  else
    data <- _request "PUT" ("/v1/namespaces/" ++ Urllib.quote id "")
              (Some (VDict (dump_UpdateNamespaceInput input))) None ;;
    lift (model_validate Namespace data).

Definition delete_namespace (id : string) : IO Any :=
  if negb (str_truthy id) then raise (ExValidationError "id" "id is required")
  else
    _ <- _request "DELETE" ("/v1/namespaces/" ++ Urllib.quote id "") None None ;;
    ret VNone.

(** [if options:] tests for [None]: a model instance is always truthy. *)
Definition list_namespaces (options : option ListOptions) : IO Any :=
  let params : gmap string Any := ∅ in
  let params :=
    match options with
    | Some options =>
        let params := if int_truthy (lo_limit options)
                      then put "limit" (VInt <$> lo_limit options) params
                      else params in
        let params := if int_truthy (lo_offset options)
                      then put "offset" (VInt <$> lo_offset options) params
                      else params in
        params
    | None => params
    end in
  data <- _request "GET" "/v1/namespaces" None (dict_or_None params) ;;
  lift (model_validate ListResponse_Namespace data).

Definition list_namespace_memories (namespace : string)
    (options : option ListOptions) : IO Any :=
  if negb (str_truthy namespace) then
    raise (ExValidationError "namespace" "namespace is required")
  else
    let params : gmap string Any := ∅ in
    let params :=
      match options with
      | Some options =>
          let params := if int_truthy (lo_limit options)
                        then put "limit" (VInt <$> lo_limit options) params
                        else params in
          let params := if int_truthy (lo_offset options)
                        then put "offset" (VInt <$> lo_offset options) params
                        else params in
          params
      | None => params
      end in
    data <- _request "GET" ("/v1/namespaces/" ++ Urllib.quote namespace "" ++ "/memories")
              None (dict_or_None params) ;;
    lift (model_validate ListResponse_Memory data).

Definition get_context (input : GetContextInput) : IO Any :=
  if negb (str_truthy (gc_query input)) then
    raise (ExValidationError "query" "query is required")
  else
    data <- _request "POST" "/v1/context"
              (Some (VDict (dump_GetContextInput input))) None ;;
    lift (model_validate ContextResponse data).

Definition remember (namespace content : string) : IO Any :=
  create_memory
    (mkCreateMemoryInput namespace content (Some SEMANTIC) None None
       (Some float_1_0) (Some USER)).

Definition recall (query : string) (namespace : option string)
    (token_budget : option Z) (system_prompt : option string)
    (min_score : option spec_float) (include_scores : option bool) : IO Any :=
  get_context
    (mkGetContextInput query namespace token_budget system_prompt
       include_scores min_score).

Definition forget (id : string) : IO Any :=
  _ <- delete_memory id ;;
  ret VNone.

Definition call (op : Operation) : IO Any :=
  match op with
  | Health => health
  | Ready => ready
  | GetStats => stats
  | CreateMemory input => create_memory input
  | GetMemory id => get_memory id
  | UpdateMemory id input => update_memory id input
  | DeleteMemory id => delete_memory id
  | SearchMemories input => search_memories input
  | CreateNamespace input => create_namespace input
  | GetNamespace id_or_name => get_namespace id_or_name
  | UpdateNamespace id input => update_namespace id input
  | DeleteNamespace id => delete_namespace id
  | ListNamespaces options => list_namespaces options
  | ListNamespaceMemories namespace options => list_namespace_memories namespace options
  | GetContext input => get_context input
  | Remember namespace content => remember namespace content
  | Recall query namespace token_budget system_prompt min_score include_scores =>
      recall query namespace token_budget system_prompt min_score include_scores
  | Forget id => forget id
  end.

End Methods.

End MAIAClient.

(** ** client.py: [AsyncMAIAClient] *)

Module AsyncMAIAClient.

Import Errors Types IO.
Local Open Scope io_scope.

Record t : Type := mkAsyncMAIAClient {
  base_url : string;
  _client : Http.Client
}.

(** [headers or {}]. *)
Definition headers_or_empty (headers : option (gmap string string)) : gmap string string :=
  match headers with
  | Some h => h
  | None => ∅
  end.

Definition __init__ (base_url : string) (timeout : spec_float)
    (headers : option (gmap string string)) : t :=
  let base_url := Str.rstrip base_url "/" in
  mkAsyncMAIAClient base_url (Http.mkClient base_url timeout (headers_or_empty headers)).

(** [await m]: the caller is suspended until [m] completes and resumes with
    its result or its exception; nothing else of the caller runs meanwhile. *)
Definition await {A} (m : IO A) : IO A := m.

Section Methods.

(** pydantic's [Model.model_validate(data)]: the instance, or the
    validation error it raises. *)
Variable model_validate : Model -> Any -> Exn + Any.

Variable self : t.

Definition _request (method path : string) (json : option Any)
    (params : option (gmap string Any)) : IO Any :=
  sent <- await (request (_client self) method path json params) ;;
  match sent with
  | inl e => raise (ExNetworkError ("Request failed: " ++ request_error_str e) (Some e))
  | inr response =>
      if Http.status_code response >=? 400 then
        match Http.json response with
        | Some (VDict data) =>
            raise (ExAPIError (mkAPIError
              (Http.status_code response)
              (dict_get_default data "error"
                 (VStr ("HTTP " ++ str_of_int (Http.status_code response))))
              (dict_get data "code")
              (dict_get data "details")))
        | Some data => raise (ExAttributeError data "get")
        | None =>
            raise (ExAPIError (mkAPIError
              (Http.status_code response)
              (VStr (if str_truthy (Http.text response) then Http.text response
                     else "HTTP " ++ str_of_int (Http.status_code response)))
              VNone VNone))
        end
      else if str_truthy (Http.content response) then
        match Http.json response with
        | Some data => ret data
        | None => raise (ExJSONDecodeError (Http.text response))
        end
      else ret VNone
  end.

Definition health : IO Any :=
  data <- await (_request "GET" "/health" None None) ;;
  lift (model_validate HealthResponse data).

Definition ready : IO Any :=
  _ <- await (_request "GET" "/ready" None None) ;;
  ret VNone.

Definition stats : IO Any :=
  data <- await (_request "GET" "/v1/stats" None None) ;;
  lift (model_validate Stats data).

Definition create_memory (input : CreateMemoryInput) : IO Any :=
  if negb (str_truthy (cm_namespace input)) then
    raise (ExValidationError "namespace" "namespace is required")
  else if negb (str_truthy (cm_content input)) then
    raise (ExValidationError "content" "content is required")
  else
    data <- await (_request "POST" "/v1/memories"
              (Some (VDict (dump_CreateMemoryInput input))) None) ;;
    lift (model_validate Memory data).

Definition get_memory (id : string) : IO Any :=
  if negb (str_truthy id) then raise (ExValidationError "id" "id is required")
  else
    data <- await (_request "GET" ("/v1/memories/" ++ Urllib.quote id "") None None) ;;
    lift (model_validate Memory data).

Definition update_memory (id : string) (input : UpdateMemoryInput) : IO Any :=
  if negb (str_truthy id) then raise (ExValidationError "id" "id is required")
  else
    data <- await (_request "PUT" ("/v1/memories/" ++ Urllib.quote id "")
              (Some (VDict (dump_UpdateMemoryInput input))) None) ;;
    lift (model_validate Memory data).

Definition delete_memory (id : string) : IO Any :=
  if negb (str_truthy id) then raise (ExValidationError "id" "id is required")
  else
    _ <- await (_request "DELETE" ("/v1/memories/" ++ Urllib.quote id "") None None) ;;
    ret VNone.

Definition search_memories (input : option SearchMemoriesInput) : IO Any :=
  let input := match input with
               | None => SearchMemoriesInput_default
               | Some i => i
               end in
  data <- await (_request "POST" "/v1/memories/search"
            (Some (VDict (dump_SearchMemoriesInput input))) None) ;;
  lift (model_validate ListResponse_SearchResult data).

Definition create_namespace (input : CreateNamespaceInput) : IO Any :=
  if negb (str_truthy (cn_name input)) then
    raise (ExValidationError "name" "name is required")
  else
    data <- await (_request "POST" "/v1/namespaces"
              (Some (VDict (dump_CreateNamespaceInput input))) None) ;;
    lift (model_validate Namespace data).

Definition get_namespace (id_or_name : string) : IO Any :=
  if negb (str_truthy id_or_name) then
    raise (ExValidationError "id_or_name" "id or name is required")
  else
    data <- await (_request "GET" ("/v1/namespaces/" ++ Urllib.quote id_or_name "") None None) ;;
    lift (model_validate Namespace data).

Definition update_namespace (id : string) (input : UpdateNamespaceInput) : IO Any :=
  if negb (str_truthy id) then raise (ExValidationError "id" "id is required")
  else
    data <- await (_request "PUT" ("/v1/namespaces/" ++ Urllib.quote id "")
              (Some (VDict (dump_UpdateNamespaceInput input))) None) ;;
    lift (model_validate Namespace data).

Definition delete_namespace (id : string) : IO Any :=
  if negb (str_truthy id) then raise (ExValidationError "id" "id is required")
  else
    _ <- await (_request "DELETE" ("/v1/namespaces/" ++ Urllib.quote id "") None None) ;;
    ret VNone.

(** [if options:] tests for [None]: a model instance is always truthy. *)
Definition list_namespaces (options : option ListOptions) : IO Any :=
  let params : gmap string Any := ∅ in
  let params :=
    match options with
    | Some options =>
        let params := if int_truthy (lo_limit options)
                      then put "limit" (VInt <$> lo_limit options) params
                      else params in
        let params := if int_truthy (lo_offset options)
                      then put "offset" (VInt <$> lo_offset options) params
                      else params in
        params
    | None => params
    end in
  data <- await (_request "GET" "/v1/namespaces" None (dict_or_None params)) ;;
  lift (model_validate ListResponse_Namespace data).

Definition list_namespace_memories (namespace : string)
    (options : option ListOptions) : IO Any :=
  if negb (str_truthy namespace) then
    raise (ExValidationError "namespace" "namespace is required")
  else
    let params : gmap string Any := ∅ in
    let params :=
      match options with
      | Some options =>
          let params := if int_truthy (lo_limit options)
                        then put "limit" (VInt <$> lo_limit options) params
                        else params in
          let params := if int_truthy (lo_offset options)
                        then put "offset" (VInt <$> lo_offset options) params
                        else params in
          params
      | None => params
      end in
    data <- await (_request "GET" ("/v1/namespaces/" ++ Urllib.quote namespace "" ++ "/memories")
              None (dict_or_None params)) ;;
    lift (model_validate ListResponse_Memory data).

Definition get_context (input : GetContextInput) : IO Any :=
  if negb (str_truthy (gc_query input)) then
    raise (ExValidationError "query" "query is required")
  else
    data <- await (_request "POST" "/v1/context"
              (Some (VDict (dump_GetContextInput input))) None) ;;
    lift (model_validate ContextResponse data).

Definition remember (namespace content : string) : IO Any :=
  await (create_memory
    (mkCreateMemoryInput namespace content (Some SEMANTIC) None None
       (Some float_1_0) (Some USER))).

Definition recall (query : string) (namespace : option string)
    (token_budget : option Z) (system_prompt : option string)
    (min_score : option spec_float) (include_scores : option bool) : IO Any :=
  await (get_context
    (mkGetContextInput query namespace token_budget system_prompt
       include_scores min_score)).

Definition forget (id : string) : IO Any :=
  _ <- await (delete_memory id) ;;
  ret VNone.

Definition call (op : Operation) : IO Any :=
  match op with
  | Health => health
  | Ready => ready
  | GetStats => stats
  | CreateMemory input => create_memory input
  | GetMemory id => get_memory id
  | UpdateMemory id input => update_memory id input
  | DeleteMemory id => delete_memory id
  | SearchMemories input => search_memories input
  | CreateNamespace input => create_namespace input
  | GetNamespace id_or_name => get_namespace id_or_name
  | UpdateNamespace id input => update_namespace id input
  | DeleteNamespace id => delete_namespace id
  | ListNamespaces options => list_namespaces options
  | ListNamespaceMemories namespace options => list_namespace_memories namespace options
  | GetContext input => get_context input
  | Remember namespace content => remember namespace content
  | Recall query namespace token_budget system_prompt min_score include_scores =>
      recall query namespace token_budget system_prompt min_score include_scores
  | Forget id => forget id
  end.

End Methods.

End AsyncMAIAClient.

(** ** Sample data *)

Module Sample.

Import Errors Types Http.

(** A validator that accepts exactly the JSON objects. *)
Definition model_validate (m : Model) (data : Any) : Exn + Any :=
  match data with
  | VDict _ => inr data
  | _ => inl (ExPydanticValidationError "model" data)
  end.

Definition client : MAIAClient.t :=
  MAIAClient.__init__ DEFAULT_BASE_URL DEFAULT_TIMEOUT None.

Definition async_client : AsyncMAIAClient.t :=
  AsyncMAIAClient.__init__ DEFAULT_BASE_URL DEFAULT_TIMEOUT None.

(** A server that answers every request with the same response. *)
Definition always (r : Response) : Transport := fun _ _ => inr r.

(** A network that is down. *)
Definition unreachable : Transport :=
  fun _ _ => inl (mkRequestError "connection refused").

Definition memory_body : gmap string Any :=
  <["id" := VStr "mem-123"]> (<["content" := VStr "Test memory"]> ∅).

Definition created : Response :=
  mkResponse 201 "{...}" "{...}" (Some (VDict memory_body)).

Definition not_found : Response :=
  mkResponse 404 "{...}" "{...}"
    (Some (VDict (<["error" := VStr "memory not found"]>
                  (<["code" := VStr "NOT_FOUND"]> ∅)))).

Definition bad_gateway_html : Response :=
  mkResponse 502 "<html>" "<html>" None.

Definition ok_html : Response :=
  mkResponse 200 "<html>" "<html>" None.

Definition no_content : Response := mkResponse 204 "" "" None.

(** The request of [update_memory("m 1", UpdateMemoryInput(content="new"))]. *)
Definition update_request : Request :=
  mkRequest (MAIAClient._client client) "PUT" "/v1/memories/m%201"
    (Some (VDict (<["content" := VStr "new"]> ∅))) None.

(** The request of [get_memory("mem-123")]. *)
Definition get_request : Request :=
  mkRequest (MAIAClient._client client) "GET" "/v1/memories/mem-123" None None.

End Sample.

(** ** Vocabulary of the statements *)

Section Vocabulary.

Import Errors Types Http Urllib.

(** Every character [quote] writes is unreserved, listed in [safe], or part
    of a [%XX] escape. *)
Definition quoted_char (safe : string) (c : ascii) : bool :=
  always_safe c || mem_char c safe || Ascii.eqb c "%".

Fixpoint all_chars (p : ascii -> bool) (s : string) : bool :=
  match s with
  | EmptyString => true
  | String c rest => p c && all_chars p rest
  end.

(** The value a request carries for a query parameter, if it carries one. *)
Definition query_param (req : Request) (key : string) : option Any :=
  match req_params req with
  | Some params => params !! key
  | None => None
  end.

(** What the listing operations promise about [limit] and [offset]. *)
Definition pagination_sent (options : option ListOptions) (req : Request) : Prop :=
  match options with
  | None => req_params req = None
  | Some o =>
      (forall v, query_param req "limit" = Some v <->
                 exists n, lo_limit o = Some n /\ n <> 0 /\ v = VInt n)
      /\ (forall v, query_param req "offset" = Some v <->
                 exists n, lo_offset o = Some n /\ n <> 0 /\ v = VInt n)
      /\ (forall key, key <> "limit" -> key <> "offset" -> query_param req key = None)
  end.

(** No entry of the dictionary is [None] (JSON [null]). *)
Definition no_null (body : gmap string Any) : Prop :=
  map_Forall (fun _ v => v <> VNone) body.

(** An unset field leaves no key behind. *)
Definition omitted_when_unset {A} (field : option A) (key : string)
    (body : gmap string Any) : Prop :=
  field = None -> body !! key = None.

(** The dump of a [NamespaceConfig]. *)
Definition config_omits_unset (c : NamespaceConfig) (cfg : gmap string Any) : Prop :=
  no_null cfg
  /\ omitted_when_unset (nc_token_budget c) "token_budget" cfg
  /\ omitted_when_unset (nc_max_memories c) "max_memories" cfg
  /\ omitted_when_unset (nc_retention_days c) "retention_days" cfg
  /\ omitted_when_unset (nc_allowed_types c) "allowed_types" cfg
  /\ omitted_when_unset (nc_custom_scoring c) "custom_scoring" cfg.

(** The transport outcomes the client turns into its own errors: no
    response at all, or a response with status >= 400 whose body is either
    not valid JSON or a JSON object. *)
Definition answered_with_error (out : RequestError + Response) : Prop :=
  match out with
  | inl _ => True
  | inr r =>
      Http.status_code r >= 400
      /\ (json r = None \/ exists d, json r = Some (VDict d))
  end.

(** What [_request] makes of the transport's answer; the requests it logs
    are dealt with apart. *)
Definition interpret (out : RequestError + Response) : Exn + Any :=
  match out with
  | inl e => inl (ExNetworkError ("Request failed: " ++ request_error_str e) (Some e))
  | inr response =>
      if Http.status_code response >=? 400 then
        match json response with
        | Some (VDict data) =>
            inl (ExAPIError (mkAPIError (Http.status_code response)
                   (dict_get_default data "error"
                      (VStr ("HTTP " ++ str_of_int (Http.status_code response))))
                   (dict_get data "code") (dict_get data "details")))
        | Some data => inl (ExAttributeError data "get")
        | None =>
            inl (ExAPIError (mkAPIError (Http.status_code response)
                   (VStr (if str_truthy (text response) then text response
                          else "HTTP " ++ str_of_int (Http.status_code response)))
                   VNone VNone))
        end
      else if str_truthy (content response) then
        match json response with
        | Some data => inr data
        | None => inl (ExJSONDecodeError (text response))
        end
      else inr VNone
  end.

(** [s.startswith(prefix)]. *)
Fixpoint starts_with (s prefix : string) : bool :=
  match prefix, s with
  | EmptyString, _ => true
  | String p prefix', String c s' => Ascii.eqb c p && starts_with s' prefix'
  | String _ _, EmptyString => false
  end.

(** The model an operation validates the answer against, from its return
    annotation; [None] for the operations that return nothing. *)
Definition response_model (op : Operation) : option Model :=
  match op with
  | Health => Some HealthResponse
  | GetStats => Some Stats
  | CreateMemory _ | GetMemory _ | UpdateMemory _ _ | Remember _ _ => Some Memory
  | SearchMemories _ => Some ListResponse_SearchResult
  | CreateNamespace _ | GetNamespace _ | UpdateNamespace _ _ => Some Namespace
  | ListNamespaces _ => Some ListResponse_Namespace
  | ListNamespaceMemories _ _ => Some ListResponse_Memory
  | GetContext _ | Recall _ _ _ _ _ _ => Some ContextResponse
  | Ready | DeleteMemory _ | DeleteNamespace _ | Forget _ => None
  end.

(** What an operation does with the value [_request] returns. *)
Definition finish (model_validate : Model -> Any -> Exn + Any) (op : Operation)
    (x : Any) : Exn + Any :=
  match response_model op with
  | Some cls => model_validate cls x
  | None => inr VNone
  end.

(** The body an answer hands to the caller: its parsed JSON, or [None]
    (Python's) when it is empty. *)
Definition body_value (r : Response) : option Any :=
  if str_truthy (content r) then json r else Some VNone.

End Vocabulary.

(** * Properties *)

(** ** Strings *)

Section StringFacts.

Import Urllib Str.

Lemma str_truthy_false (s : string) : str_truthy s = false <-> s = "".
Proof. destruct s; simpl; split; congruence. Qed.

Lemma str_truthy_true (s : string) : str_truthy s = true <-> s <> "".
Proof. destruct s; simpl; split; congruence. Qed.

Lemma append_nil_l (s : string) : "" ++ s = s.
Proof. reflexivity. Qed.

Lemma append_cons (c : ascii) (s t : string) : String c s ++ t = String c (s ++ t).
Proof. reflexivity. Qed.

Lemma rstrip_decompose (s chars : string) :
  exists suffix, s = rstrip s chars ++ suffix
    /\ forall c, mem_char c suffix = true -> mem_char c chars = true.
Proof.
  induction s as [|c rest IH]; simpl.
  - exists ""; split; [reflexivity | simpl; discriminate].
  - destruct IH as (suffix & Heq & Hin).
    destruct (rstrip rest chars) as [|k kept] eqn:Hr.
    + rewrite append_nil_l in Heq; subst suffix.
      destruct (mem_char c chars) eqn:Hc.
      * exists (String c rest); split; [reflexivity|].
        simpl. intros d.
        destruct (Ascii.eqb d c) eqn:Hd; [|auto].
        apply Ascii.eqb_eq in Hd; subst d; auto.
      * exists rest; split; [reflexivity | assumption].
    + exists suffix; split; [|assumption].
      rewrite append_cons. f_equal. exact Heq.
Qed.

Lemma rstrip_no_trailing (s chars : string) (c : ascii) :
  mem_char c chars = true -> ends_with_char (rstrip s chars) c = false.
Proof.
  intros Hc. induction s as [|d rest IH]; simpl; [reflexivity|].
  destruct (rstrip rest chars) as [|k kept] eqn:Hr.
  - destruct (mem_char d chars) eqn:Hd; simpl; [reflexivity|].
    destruct (Ascii.eqb d c) eqn:E; [|reflexivity].
    apply Ascii.eqb_eq in E; congruence.
  - exact IH.
Qed.

Lemma only_slashes (suffix : string) :
  (forall c, mem_char c suffix = true -> mem_char c "/" = true) ->
  suffix = repeat_char "/" (String.length suffix).
Proof.
  induction suffix as [|d rest IH]; simpl; intros H; [reflexivity|].
  assert (Hd : d = "/"%char).
  { specialize (H d). rewrite Ascii.eqb_refl in H. specialize (H eq_refl).
    destruct (Ascii.eqb d "/") eqn:E; [|discriminate].
    now apply Ascii.eqb_eq in E. }
  subst d. f_equal. apply IH. intros c Hc. apply H.
  destruct (Ascii.eqb c "/"); [reflexivity | exact Hc].
Qed.

Lemma all_chars_app p s1 s2 :
  all_chars p (s1 ++ s2) = all_chars p s1 && all_chars p s2.
Proof.
  induction s1 as [|c s1 IH]; [reflexivity|].
  rewrite append_cons; simpl. rewrite IH. apply andb_assoc.
Qed.

Lemma quote_byte_chars (c : ascii) :
  all_chars (quoted_char "") (quote_byte "" c) = true.
Proof.
  destruct c as [[] [] [] [] [] [] [] []]; vm_compute; reflexivity.
Qed.

Lemma quote_chars (s : string) : all_chars (quoted_char "") (quote s "") = true.
Proof.
  induction s as [|c rest IH]; simpl; [reflexivity|].
  rewrite all_chars_app, quote_byte_chars, IH. reflexivity.
Qed.

Lemma all_chars_not_mem p s c :
  all_chars p s = true -> p c = false -> mem_char c s = false.
Proof.
  induction s as [|d rest IH]; simpl; intros Hall Hc; [reflexivity|].
  apply andb_true_iff in Hall as [Hd Hrest].
  destruct (Ascii.eqb c d) eqn:E.
  - apply Ascii.eqb_eq in E; congruence.
  - auto.
Qed.

Lemma quote_no_slash (s : string) : mem_char "/" (quote s "") = false.
Proof.
  apply all_chars_not_mem with (p := quoted_char ""); [apply quote_chars | reflexivity].
Qed.

Lemma unquote_quote_byte (c : ascii) (rest : string) :
  unquote (quote_byte "" c ++ rest) = String c (unquote rest).
Proof.
  destruct c as [[] [] [] [] [] [] [] []]; reflexivity.
Qed.

Lemma unquote_quote (s : string) : unquote (quote s "") = s.
Proof.
  induction s as [|c rest IH]; simpl; [reflexivity|].
  rewrite unquote_quote_byte, IH. reflexivity.
Qed.

Lemma quote_nonempty (s : string) : s <> "" -> quote s "" <> "".
Proof.
  intros Hs Hq. apply Hs. rewrite <- (unquote_quote s), Hq. reflexivity.
Qed.

End StringFacts.

(** ** Running computations *)

Section IOFacts.

Import Errors Http IO.
Local Open Scope io_scope.

Lemma lift_log {A} (r : Exn + A) tr log : snd (lift r tr log) = log.
Proof. destruct r; reflexivity. Qed.

Lemma lift_fst {A} (r : Exn + A) tr log : fst (lift r tr log) = r.
Proof. destruct r; reflexivity. Qed.

Lemma bind_lift_log {A B} (m : IO A) (f : A -> Exn + B) tr log :
  snd ((x <- m ;; lift (f x)) tr log) = snd (m tr log).
Proof.
  unfold bind. destruct (m tr log) as [[e|x] log']; [reflexivity | apply lift_log].
Qed.

Lemma bind_ret_log {A B} (m : IO A) (y : B) tr log :
  snd ((_ <- m ;; ret y) tr log) = snd (m tr log).
Proof. unfold bind. destruct (m tr log) as [[e|x] log']; reflexivity. Qed.

Lemma bind_raises {A B} (m : IO A) (k : A -> IO B) tr log e log' :
  m tr log = (inl e, log') -> (x <- m ;; k x) tr log = (inl e, log').
Proof. unfold bind. intros ->. reflexivity. Qed.

Lemma bind_returns {A B} (m : IO A) (k : A -> IO B) tr log x log' :
  m tr log = (inr x, log') -> (x <- m ;; k x) tr log = k x tr log'.
Proof. unfold bind. intros ->. reflexivity. Qed.

(** Whatever the transport does, [_request] calls it exactly once. *)
Lemma request_once (self : MAIAClient.t) method path body params tr log :
  snd (MAIAClient._request self method path body params tr log)
  = (log ++ [mkRequest (MAIAClient._client self) method path body params])%list.
Proof.
  unfold MAIAClient._request, bind, request. cbn.
  destruct (tr log _) as [e|r]; [reflexivity|].
  destruct (status_code r >=? 400).
  - destruct (json r) as [[]|]; reflexivity.
  - destruct (str_truthy (content r)); [|reflexivity].
    destruct (json r); reflexivity.
Qed.

End IOFacts.

(** ** The claims *)

Section Claims.

Import Errors Types Http IO.
Import Urllib Str.

(** C3. The classification helpers of an [APIError] with status code [s] and
    code [c]: [is_not_found] holds exactly when [s = 404] or [c] is the
    string "NOT_FOUND", [is_already_exists] exactly when [s = 409] or [c] is
    "ALREADY_EXISTS", [is_invalid_input] exactly when [s = 400] or [c] is
    "INVALID_INPUT", [is_server_error] exactly when [s >= 500].  A 404 with
    code "NOT_FOUND" is not-found and neither already-exists nor
    invalid-input; a 500 without a code is a server error and not not-found. *)
Theorem APIError_classification :
  (forall e : APIErrorData,
      (is_not_found e = true <->
         Errors.status_code e = 404 \/ code e = VStr "NOT_FOUND")
      /\ (is_already_exists e = true <->
         Errors.status_code e = 409 \/ code e = VStr "ALREADY_EXISTS")
      /\ (is_invalid_input e = true <->
         Errors.status_code e = 400 \/ code e = VStr "INVALID_INPUT")
      /\ (is_server_error e = true <-> Errors.status_code e >= 500))
  /\ (forall msg det,
      is_not_found (mkAPIError 404 msg (VStr "NOT_FOUND") det) = true
      /\ is_already_exists (mkAPIError 404 msg (VStr "NOT_FOUND") det) = false
      /\ is_invalid_input (mkAPIError 404 msg (VStr "NOT_FOUND") det) = false)
  /\ (forall msg det,
      is_server_error (mkAPIError 500 msg VNone det) = true
      /\ is_not_found (mkAPIError 500 msg VNone det) = false).
Proof.
  assert (Heq : forall v s, eq_str v s = true <-> v = VStr s).
  { intros v s. destruct v; simpl; try (split; [discriminate | congruence]).
    rewrite String.eqb_eq. split; congruence. }
  split; [|split; intros; repeat split; reflexivity].
  intros [s m c d]; unfold is_not_found, is_already_exists, is_invalid_input,
    is_server_error; simpl.
  rewrite !orb_true_iff, !Z.eqb_eq, !Heq, Z.geb_le.
  repeat split; intros; try tauto; lia.
Qed.

(** C10. Both constructors store the given base URL without its trailing
    "/" characters: the input is the stored URL followed by some number of
    "/", the stored URL does not end in "/", and the HTTP client is
    configured with the stored URL.  Two inputs that differ only in trailing
    "/" (such as "http://localhost:8080/" and "http://localhost:8080") build
    the same client, hence the same requests. *)
Theorem init_strips_trailing_slashes :
  (forall url timeout headers,
      let c := MAIAClient.__init__ url timeout headers in
      let a := AsyncMAIAClient.__init__ url timeout headers in
      (exists n, url = MAIAClient.base_url c ++ repeat_char "/" n)
      /\ ends_with_char (MAIAClient.base_url c) "/" = false
      /\ client_base_url (MAIAClient._client c) = MAIAClient.base_url c
      /\ AsyncMAIAClient.base_url a = MAIAClient.base_url c
      /\ AsyncMAIAClient._client a = MAIAClient._client c)
  /\ (forall url n timeout headers,
      ends_with_char url "/" = false ->
      MAIAClient.__init__ (url ++ repeat_char "/" n) timeout headers
        = MAIAClient.__init__ url timeout headers
      /\ AsyncMAIAClient.__init__ (url ++ repeat_char "/" n) timeout headers
        = AsyncMAIAClient.__init__ url timeout headers)
  /\ (forall timeout headers,
      MAIAClient.__init__ "http://localhost:8080/" timeout headers
        = MAIAClient.__init__ "http://localhost:8080" timeout headers
      /\ AsyncMAIAClient.__init__ "http://localhost:8080/" timeout headers
        = AsyncMAIAClient.__init__ "http://localhost:8080" timeout headers).
Proof.
  assert (Hstrip : forall url n, ends_with_char url "/" = false ->
            rstrip (url ++ repeat_char "/" n) "/" = url).
  { induction url as [|c rest IH]; intros n Hend.
    - rewrite append_nil_l. induction n as [|n IHn]; simpl; [reflexivity|].
      now rewrite IHn.
    - rewrite append_cons. simpl. destruct rest as [|d rest'].
      + rewrite append_nil_l. simpl in Hend.
        assert (Hn : rstrip (repeat_char "/" n) "/" = "").
        { clear. induction n as [|n IHn]; simpl; [reflexivity|]. now rewrite IHn. }
        rewrite Hn. simpl. destruct (Ascii.eqb c "/"); [discriminate | reflexivity].
      + rewrite IH by exact Hend. reflexivity. }
  split; [|split].
  - intros url timeout headers; cbv zeta.
    unfold MAIAClient.__init__, AsyncMAIAClient.__init__; simpl.
    repeat split.
    + destruct (rstrip_decompose url "/") as (suffix & Heq & Hin).
      exists (String.length suffix). rewrite <- (only_slashes suffix Hin). exact Heq.
    + apply rstrip_no_trailing. reflexivity.
  - intros url n timeout headers Hend.
    unfold MAIAClient.__init__, AsyncMAIAClient.__init__.
    rewrite (Hstrip url n Hend).
    assert (H0 : rstrip url "/" = url).
    { specialize (Hstrip url O Hend). simpl in Hstrip.
      assert (Hnil : url ++ "" = url).
      { clear. induction url as [|c u IH]; [reflexivity|].
        rewrite append_cons, IH. reflexivity. }
      rewrite Hnil in Hstrip. exact Hstrip. }
    rewrite H0. split; reflexivity.
  - intros; split; reflexivity.
Qed.

(** C1 (as amended). An empty required field raises [ValidationError] naming
    that field and leaves the request log untouched, for every operation
    with a required string field; [create_memory] checks [namespace] first,
    so it names [content] when [content] is empty and [namespace] is not. *)
Theorem required_fields_checked_before_sending
    (model_validate : Model -> Any -> Exn + Any) (self : MAIAClient.t)
    (tr : Transport) (log : list Request) :
  (forall input, cm_namespace input = "" ->
      MAIAClient.create_memory model_validate self input tr log
      = (inl (ExValidationError "namespace" "namespace is required"), log))
  /\ (forall input, cm_namespace input <> "" -> cm_content input = "" ->
      MAIAClient.create_memory model_validate self input tr log
      = (inl (ExValidationError "content" "content is required"), log))
  /\ MAIAClient.get_memory model_validate self "" tr log
      = (inl (ExValidationError "id" "id is required"), log)
  /\ (forall input, MAIAClient.update_memory model_validate self "" input tr log
      = (inl (ExValidationError "id" "id is required"), log))
  /\ MAIAClient.delete_memory self "" tr log
      = (inl (ExValidationError "id" "id is required"), log)
  /\ (forall input, cn_name input = "" ->
      MAIAClient.create_namespace model_validate self input tr log
      = (inl (ExValidationError "name" "name is required"), log))
  /\ MAIAClient.get_namespace model_validate self "" tr log
      = (inl (ExValidationError "id_or_name" "id or name is required"), log)
  /\ (forall input, MAIAClient.update_namespace model_validate self "" input tr log
      = (inl (ExValidationError "id" "id is required"), log))
  /\ MAIAClient.delete_namespace self "" tr log
      = (inl (ExValidationError "id" "id is required"), log)
  /\ (forall options,
      MAIAClient.list_namespace_memories model_validate self "" options tr log
      = (inl (ExValidationError "namespace" "namespace is required"), log))
  /\ (forall input, gc_query input = "" ->
      MAIAClient.get_context model_validate self input tr log
      = (inl (ExValidationError "query" "query is required"), log)).
Proof.
  repeat split; try reflexivity.
  - intros input H. unfold MAIAClient.create_memory. rewrite H. reflexivity.
  - intros input Hn Hc. unfold MAIAClient.create_memory.
    apply str_truthy_true in Hn. rewrite Hn, Hc. reflexivity.
  - intros input H. unfold MAIAClient.create_namespace. rewrite H. reflexivity.
  - intros input H. unfold MAIAClient.get_context. rewrite H. reflexivity.
Qed.

(** C1, the input that refutes the claim as worded: [create_memory] with
    [content] empty and [namespace] empty as well raises a [ValidationError]
    whose field is "namespace", not "content". *)
Lemma create_memory_empty_content_names_namespace :
  cm_content (mkCreateMemoryInput "" "" None None None None None) = ""
  /\ MAIAClient.create_memory Sample.model_validate Sample.client
       (mkCreateMemoryInput "" "" None None None None None)
       (Sample.always Sample.created) []
     = (inl (ExValidationError "namespace" "namespace is required"), [])
  /\ String.eqb "namespace" "content" = false.
Proof. repeat split. Qed.


(** C7. For a non-empty identifier, each operation that takes one sends its
    request (no further check rejects the identifier) with, in the path, the
    identifier quoted with an empty [safe] set: the segment holds only
    unreserved characters and [%XX] escapes, so no "/", and it decodes back
    to the identifier. *)
Theorem identifiers_are_percent_encoded
    (model_validate : Model -> Any -> Exn + Any) (self : MAIAClient.t)
    (tr : Transport) (log : list Request) (id : string) (Hid : id <> "") :
  let segment := quote id "" in
  let sent (path : string) body params :=
    (log ++ [mkRequest (MAIAClient._client self) "GET" path body params])%list in
  (mem_char "/" segment = false
   /\ all_chars (quoted_char "") segment = true
   /\ unquote segment = id)
  /\ snd (MAIAClient.get_memory model_validate self id tr log)
     = sent ("/v1/memories/" ++ segment) None None
  /\ (forall input,
      snd (MAIAClient.update_memory model_validate self id input tr log)
      = (log ++ [mkRequest (MAIAClient._client self) "PUT"
                   ("/v1/memories/" ++ segment)
                   (Some (VDict (dump_UpdateMemoryInput input))) None])%list)
  /\ snd (MAIAClient.delete_memory self id tr log)
     = (log ++ [mkRequest (MAIAClient._client self) "DELETE"
                  ("/v1/memories/" ++ segment) None None])%list
  /\ snd (MAIAClient.get_namespace model_validate self id tr log)
     = sent ("/v1/namespaces/" ++ segment) None None
  /\ (forall input,
      snd (MAIAClient.update_namespace model_validate self id input tr log)
      = (log ++ [mkRequest (MAIAClient._client self) "PUT"
                   ("/v1/namespaces/" ++ segment)
                   (Some (VDict (dump_UpdateNamespaceInput input))) None])%list)
  /\ snd (MAIAClient.delete_namespace self id tr log)
     = (log ++ [mkRequest (MAIAClient._client self) "DELETE"
                  ("/v1/namespaces/" ++ segment) None None])%list
  /\ (forall options, exists params,
      snd (MAIAClient.list_namespace_memories model_validate self id options tr log)
      = sent ("/v1/namespaces/" ++ segment ++ "/memories") None params).
Proof.
  cbv zeta. apply str_truthy_true in Hid.
  split; [auto using quote_no_slash, quote_chars, unquote_quote|].
  unfold MAIAClient.get_memory, MAIAClient.update_memory, MAIAClient.delete_memory,
    MAIAClient.get_namespace, MAIAClient.update_namespace,
    MAIAClient.delete_namespace, MAIAClient.list_namespace_memories.
  rewrite Hid; cbn [negb].
  repeat split; intros;
    rewrite ?bind_lift_log, ?bind_ret_log, ?request_once; try reflexivity.
  eexists; reflexivity.
Qed.

(** C7 at the identifier "a/b c": the path segment is "a%2Fb%20c". *)
Lemma identifiers_are_percent_encoded_witness :
  "a/b c" <> ""
  /\ quote "a/b c" "" = "a%2Fb%20c"
  /\ snd (MAIAClient.get_memory Sample.model_validate Sample.client "a/b c"
            (Sample.always Sample.created) [])
     = [mkRequest (MAIAClient._client Sample.client) "GET"
          ("/v1/memories/" ++ quote "a/b c" "") None None].
Proof.
  split; [discriminate|]. split; [reflexivity|].
  exact (proj1 (proj2 (identifiers_are_percent_encoded Sample.model_validate
    Sample.client (Sample.always Sample.created) [] "a/b c" ltac:(discriminate)))).
Defined.

Lemma dict_or_None_lookup (m : gmap string Any) (key : string) :
  match dict_or_None m with
  | Some params => params !! key
  | None => None
  end = m !! key.
Proof.
  unfold dict_or_None. case_decide as H; [|reflexivity].
  subst m. symmetry. apply lookup_empty.
Qed.

Lemma dict_or_None_empty : dict_or_None ∅ = None.
Proof. unfold dict_or_None. case_decide; [reflexivity | contradiction]. Qed.

Lemma pagination_params_sent (client : Http.Client) (method path : string)
    (options : option ListOptions) :
  pagination_sent options
    (mkRequest client method path None
       (dict_or_None
          match options with
          | Some o =>
              if int_truthy (lo_offset o)
              then put "offset" (VInt <$> lo_offset o)
                     (if int_truthy (lo_limit o)
                      then put "limit" (VInt <$> lo_limit o) ∅ else ∅)
              else if int_truthy (lo_limit o)
                   then put "limit" (VInt <$> lo_limit o) ∅ else ∅
          | None => ∅
          end)).
Proof.
  destruct options as [[limit offset]|]; [|apply dict_or_None_empty].
  unfold pagination_sent, query_param; simpl.
  setoid_rewrite dict_or_None_lookup.
  destruct limit as [l|], offset as [f|]; simpl;
    repeat match goal with
      | |- context [negb (?x =? 0)] =>
          let E := fresh "E" in
          destruct (Z.eqb_spec x 0) as [E|E]; simpl
      end;
    (split; [|split]);
    try (intros key Hl Ho; simplify_map_eq; reflexivity);
    intros v; (split; [intros H | intros (n & Hn & Hz & Hv)]);
    simplify_map_eq; eauto.
Qed.

(** C6. [list_namespaces] and [list_namespace_memories] send one GET whose
    query parameters are: none at all without options; with options,
    [limit] exactly when it is set and not zero, [offset] likewise, and
    nothing else.  With only [limit=10] the parameters are [limit=10]
    alone. *)
Theorem pagination_only_when_set
    (model_validate : Model -> Any -> Exn + Any) (self : MAIAClient.t)
    (tr : Transport) (log : list Request) :
  (forall options, exists req,
      snd (MAIAClient.list_namespaces model_validate self options tr log)
        = (log ++ [req])%list
      /\ req_method req = "GET" /\ req_path req = "/v1/namespaces"
      /\ pagination_sent options req)
  /\ (forall namespace options, namespace <> "" -> exists req,
      snd (MAIAClient.list_namespace_memories model_validate self namespace options tr log)
        = (log ++ [req])%list
      /\ req_method req = "GET"
      /\ req_path req = "/v1/namespaces/" ++ quote namespace "" ++ "/memories"
      /\ pagination_sent options req)
  /\ snd (MAIAClient.list_namespaces model_validate self
            (Some (mkListOptions (Some 10) None)) tr log)
     = (log ++ [mkRequest (MAIAClient._client self) "GET" "/v1/namespaces" None
                  (Some {["limit" := VInt 10]})])%list.
Proof.
  split; [|split].
  - intros options. eexists. unfold MAIAClient.list_namespaces. cbv zeta.
    rewrite bind_lift_log, request_once.
    split; [reflexivity|]. split; [reflexivity|]. split; [reflexivity|].
    apply pagination_params_sent.
  - intros namespace options Hn. apply str_truthy_true in Hn.
    eexists. unfold MAIAClient.list_namespace_memories. rewrite Hn; cbn [negb]. cbv zeta.
    rewrite bind_lift_log, request_once.
    split; [reflexivity|]. split; [reflexivity|]. split; [reflexivity|].
    apply pagination_params_sent.
  - unfold MAIAClient.list_namespaces. cbv zeta.
    rewrite bind_lift_log, request_once. reflexivity.
Qed.

Lemma lookup_put_ne (k k' : string) (v : option Any) (d : gmap string Any) :
  k <> k' -> put k v d !! k' = d !! k'.
Proof. intros Hk. destruct v; simpl; [apply lookup_insert_ne; exact Hk | reflexivity]. Qed.

Lemma lookup_put_None (k : string) (d : gmap string Any) :
  put k None d !! k = d !! k.
Proof. reflexivity. Qed.

Lemma no_null_empty : no_null ∅.
Proof. apply map_Forall_empty. Qed.

Lemma no_null_put (k : string) (v : option Any) (d : gmap string Any) :
  no_null d -> v <> Some VNone -> no_null (put k v d).
Proof.
  intros Hd Hv. destruct v as [x|]; simpl; [|exact Hd].
  apply map_Forall_insert_2; [congruence | exact Hd].
Qed.

Lemma fmap_not_null {A} (f : A -> Any) (o : option A) :
  (forall a, f a <> VNone) -> f <$> o <> Some VNone.
Proof. intros Hf. destruct o as [a|]; simpl; [|discriminate]. specialize (Hf a). congruence. Qed.

Ltac no_null_tac :=
  repeat (apply no_null_put;
          [| first [ apply fmap_not_null; intros ?; discriminate | discriminate ]]);
  apply no_null_empty.

Ltac omitted_tac :=
  let H := fresh "H" in
  intros H; rewrite H; cbn [fmap option_fmap option_map];
  repeat first
    [ rewrite lookup_put_None
    | rewrite lookup_put_ne by discriminate ];
  apply lookup_empty.

Lemma dump_NamespaceConfig_omits (c : NamespaceConfig) :
  config_omits_unset c (dump_NamespaceConfig c).
Proof.
  unfold config_omits_unset, omitted_when_unset, dump_NamespaceConfig.
  split; [no_null_tac|]. repeat split; omitted_tac.
Qed.

(** C9. Each operation that carries a body sends a JSON object that holds no
    [null] and has no key for an optional field that is unset (nor has the
    nested namespace configuration); [search_memories] without input sends
    what it sends for the all-defaults filter, the empty object. *)
Theorem unset_fields_are_omitted
    (model_validate : Model -> Any -> Exn + Any) (self : MAIAClient.t)
    (tr : Transport) (log : list Request) :
  let sent method path (body : gmap string Any) :=
    (log ++ [mkRequest (MAIAClient._client self) method path
               (Some (VDict body)) None])%list in
  (forall input, cm_namespace input <> "" -> cm_content input <> "" ->
     exists body,
       snd (MAIAClient.create_memory model_validate self input tr log)
         = sent "POST" "/v1/memories" body
       /\ no_null body
       /\ omitted_when_unset (cm_type input) "type" body
       /\ omitted_when_unset (cm_metadata input) "metadata" body
       /\ omitted_when_unset (cm_tags input) "tags" body
       /\ omitted_when_unset (cm_confidence input) "confidence" body
       /\ omitted_when_unset (cm_source input) "source" body)
  /\ (forall id input, id <> "" ->
     exists body,
       snd (MAIAClient.update_memory model_validate self id input tr log)
         = sent "PUT" ("/v1/memories/" ++ quote id "") body
       /\ no_null body
       /\ omitted_when_unset (um_content input) "content" body
       /\ omitted_when_unset (um_metadata input) "metadata" body
       /\ omitted_when_unset (um_tags input) "tags" body
       /\ omitted_when_unset (um_confidence input) "confidence" body)
  /\ (forall input,
     exists body,
       snd (MAIAClient.search_memories model_validate self (Some input) tr log)
         = sent "POST" "/v1/memories/search" body
       /\ no_null body
       /\ omitted_when_unset (sm_query input) "query" body
       /\ omitted_when_unset (sm_namespace input) "namespace" body
       /\ omitted_when_unset (sm_types input) "types" body
       /\ omitted_when_unset (sm_tags input) "tags" body
       /\ omitted_when_unset (sm_limit input) "limit" body
       /\ omitted_when_unset (sm_offset input) "offset" body)
  /\ (MAIAClient.search_memories model_validate self None tr log
        = MAIAClient.search_memories model_validate self
            (Some SearchMemoriesInput_default) tr log
      /\ snd (MAIAClient.search_memories model_validate self None tr log)
        = sent "POST" "/v1/memories/search" ∅)
  /\ (forall input, cn_name input <> "" ->
     exists body,
       snd (MAIAClient.create_namespace model_validate self input tr log)
         = sent "POST" "/v1/namespaces" body
       /\ no_null body
       /\ omitted_when_unset (cn_parent input) "parent" body
       /\ omitted_when_unset (cn_template input) "template" body
       /\ omitted_when_unset (cn_config input) "config" body
       /\ (forall c, cn_config input = Some c ->
             exists cfg, body !! "config" = Some (VDict cfg)
                         /\ config_omits_unset c cfg))
  /\ (forall id input, id <> "" ->
     exists body cfg,
       snd (MAIAClient.update_namespace model_validate self id input tr log)
         = sent "PUT" ("/v1/namespaces/" ++ quote id "") body
       /\ no_null body
       /\ body !! "config" = Some (VDict cfg)
       /\ config_omits_unset (un_config input) cfg)
  /\ (forall input, gc_query input <> "" ->
     exists body,
       snd (MAIAClient.get_context model_validate self input tr log)
         = sent "POST" "/v1/context" body
       /\ no_null body
       /\ omitted_when_unset (gc_namespace input) "namespace" body
       /\ omitted_when_unset (gc_token_budget input) "token_budget" body
       /\ omitted_when_unset (gc_system_prompt input) "system_prompt" body
       /\ omitted_when_unset (gc_include_scores input) "include_scores" body
       /\ omitted_when_unset (gc_min_score input) "min_score" body).
Proof.
  cbv zeta. unfold omitted_when_unset.
  split; [|split; [|split; [|split; [|split; [|split]]]]].
  - intros input Hn Hc. apply str_truthy_true in Hn, Hc.
    exists (dump_CreateMemoryInput input). unfold MAIAClient.create_memory.
    rewrite Hn, Hc; cbn [negb]. rewrite bind_lift_log, request_once.
    split; [reflexivity|]. unfold dump_CreateMemoryInput.
    split; [no_null_tac|]. repeat split; omitted_tac.
  - intros id input Hid. apply str_truthy_true in Hid.
    exists (dump_UpdateMemoryInput input). unfold MAIAClient.update_memory.
    rewrite Hid; cbn [negb]. rewrite bind_lift_log, request_once.
    split; [reflexivity|]. unfold dump_UpdateMemoryInput.
    split; [no_null_tac|]. repeat split; omitted_tac.
  - intros input.
    exists (dump_SearchMemoriesInput input). unfold MAIAClient.search_memories.
    cbv zeta. rewrite bind_lift_log, request_once.
    split; [reflexivity|]. unfold dump_SearchMemoriesInput.
    split; [no_null_tac|]. repeat split; omitted_tac.
  - split; [reflexivity|]. unfold MAIAClient.search_memories. cbv zeta.
    rewrite bind_lift_log, request_once. reflexivity.
  - intros input Hn. apply str_truthy_true in Hn.
    exists (dump_CreateNamespaceInput input). unfold MAIAClient.create_namespace.
    rewrite Hn; cbn [negb]. rewrite bind_lift_log, request_once.
    split; [reflexivity|]. unfold dump_CreateNamespaceInput.
    split; [no_null_tac|]. repeat split; try omitted_tac.
    intros c Hc. exists (dump_NamespaceConfig c). rewrite Hc.
    split; [apply lookup_insert_eq | apply dump_NamespaceConfig_omits].
  - intros id input Hid. apply str_truthy_true in Hid.
    exists (dump_UpdateNamespaceInput input), (dump_NamespaceConfig (un_config input)).
    unfold MAIAClient.update_namespace.
    rewrite Hid; cbn [negb]. rewrite bind_lift_log, request_once.
    split; [reflexivity|]. unfold dump_UpdateNamespaceInput.
    split; [no_null_tac|].
    split; [apply lookup_insert_eq | apply dump_NamespaceConfig_omits].
  - intros input Hq. apply str_truthy_true in Hq.
    exists (dump_GetContextInput input). unfold MAIAClient.get_context.
    rewrite Hq; cbn [negb]. rewrite bind_lift_log, request_once.
    split; [reflexivity|]. unfold dump_GetContextInput.
    split; [no_null_tac|]. repeat split; omitted_tac.
Qed.

(** C8. The convenience wrappers are the base operations with arguments
    filled in: [remember] is [create_memory] on the input with the given
    namespace and content, type semantic, source user, confidence 1.0 and
    nothing else set; [recall] is [get_context] on the input holding its
    arguments; [forget] is [delete_memory].  Against every transport and
    log they end in the same outcome with the same requests made. *)
Theorem convenience_wrappers_prefill
    (model_validate : Model -> Any -> Exn + Any) (self : MAIAClient.t)
    (tr : Transport) (log : list Request) :
  (forall namespace content,
      MAIAClient.remember model_validate self namespace content tr log
      = MAIAClient.create_memory model_validate self
          {| cm_namespace := namespace; cm_content := content;
             cm_type := Some SEMANTIC; cm_metadata := None; cm_tags := None;
             cm_confidence := Some float_1_0; cm_source := Some USER |} tr log)
  /\ (forall query namespace token_budget system_prompt min_score include_scores,
      MAIAClient.recall model_validate self query namespace token_budget
        system_prompt min_score include_scores tr log
      = MAIAClient.get_context model_validate self
          {| gc_query := query; gc_namespace := namespace;
             gc_token_budget := token_budget; gc_system_prompt := system_prompt;
             gc_include_scores := include_scores; gc_min_score := min_score |} tr log)
  /\ (forall id,
      MAIAClient.forget self id tr log = MAIAClient.delete_memory self id tr log).
Proof.
  split; [reflexivity|]. split; [reflexivity|].
  intros id. unfold MAIAClient.forget, MAIAClient.delete_memory.
  destruct (str_truthy id); [|reflexivity]. cbn [negb]. unfold bind.
  destruct (MAIAClient._request self _ _ _ _ tr log) as [[e|x] log']; reflexivity.
Qed.

(** C5. The asynchronous client is the synchronous one: built from the same
    arguments, every operation on the same input reaches the same
    validation verdict, sends the same requests (method, path, query
    parameters, body, client configuration) and, against the same
    transport, returns the same value or raises the same error; so does the
    transport operation [_request]. *)
Theorem async_client_matches_sync
    (model_validate : Model -> Any -> Exn + Any) (base_url : string)
    (timeout : spec_float) (headers : option (gmap string string))
    (tr : Transport) (log : list Request) :
  (forall op : Operation,
      AsyncMAIAClient.call model_validate
        (AsyncMAIAClient.__init__ base_url timeout headers) op tr log
      = MAIAClient.call model_validate
          (MAIAClient.__init__ base_url timeout headers) op tr log)
  /\ (forall method path body params,
      AsyncMAIAClient._request
        (AsyncMAIAClient.__init__ base_url timeout headers) method path body params tr log
      = MAIAClient._request
          (MAIAClient.__init__ base_url timeout headers) method path body params tr log).
Proof. split; [intros op; destruct op; reflexivity | reflexivity]. Qed.

Lemma request_raises_MAIAError (self : MAIAClient.t) method path body params tr log :
  answered_with_error
    (tr log (mkRequest (MAIAClient._client self) method path body params)) ->
  exists e,
    MAIAClient._request self method path body params tr log
    = (inl e, (log ++ [mkRequest (MAIAClient._client self) method path body params])%list)
    /\ isinstance e MAIAError = true.
Proof.
  unfold MAIAClient._request, bind, request. cbn.
  destruct (tr log _) as [err|r]; simpl.
  - intros _. eexists; split; reflexivity.
  - intros [Hs Hbody]. rewrite (proj2 (Z.geb_le _ _)) by lia.
    destruct Hbody as [-> | [d ->]]; eexists; split; reflexivity.
Qed.

Lemma bind_request_failure (self : MAIAClient.t) method path body params
    (k : Any -> Exn + Any) tr log e log' :
  (data <- MAIAClient._request self method path body params ;; lift (k data))%io tr log
    = (inl e, log') ->
  (forall req, log' = (log ++ [req])%list -> answered_with_error (tr log req)) ->
  isinstance e MAIAError = true.
Proof.
  intros Hrun Hcov.
  pose proof (bind_lift_log (MAIAClient._request self method path body params) k tr log)
    as Hlog.
  rewrite Hrun, request_once in Hlog. simpl in Hlog.
  destruct (request_raises_MAIAError self method path body params tr log
              (Hcov _ Hlog)) as (e' & He' & Hinst).
  rewrite (bind_raises _ _ _ _ _ _ He') in Hrun. congruence.
Qed.

Lemma bind_request_failure_ret (self : MAIAClient.t) method path body params
    (y : Any) tr log e log' :
  (_ <- MAIAClient._request self method path body params ;; ret y)%io tr log
    = (inl e, log') ->
  (forall req, log' = (log ++ [req])%list -> answered_with_error (tr log req)) ->
  isinstance e MAIAError = true.
Proof. exact (bind_request_failure self method path body params (fun _ => inr y) tr log e log'). Qed.

(** C4 (as amended). A failure of any operation is a [MAIAError] when it
    comes from validation (nothing was sent), from the transport (no
    response), or from a response with status >= 400 whose body is a JSON
    object or is not valid JSON. *)
Theorem covered_failures_are_MAIAErrors
    (model_validate : Model -> Any -> Exn + Any) (self : MAIAClient.t)
    (op : Operation) (tr : Transport) (log log' : list Request) (e : Exn)
    (Hrun : MAIAClient.call model_validate self op tr log = (inl e, log'))
    (Hcovered : forall req, log' = (log ++ [req])%list ->
                            answered_with_error (tr log req)) :
  isinstance e MAIAError = true.
Proof.
  destruct op; simpl in Hrun;
    unfold MAIAClient.health, MAIAClient.ready, MAIAClient.stats,
      MAIAClient.remember, MAIAClient.recall, MAIAClient.forget,
      MAIAClient.create_memory, MAIAClient.get_memory, MAIAClient.update_memory,
      MAIAClient.delete_memory, MAIAClient.search_memories,
      MAIAClient.create_namespace, MAIAClient.get_namespace,
      MAIAClient.update_namespace, MAIAClient.delete_namespace,
      MAIAClient.list_namespaces, MAIAClient.list_namespace_memories,
      MAIAClient.get_context in Hrun;
    cbv zeta in Hrun;
    repeat match type of Hrun with
      | context [negb (str_truthy ?s)] => destruct (str_truthy s); cbn [negb] in Hrun
      end;
    try (injection Hrun as <- _; reflexivity);
    try (eapply bind_request_failure; eassumption);
    try (eapply bind_request_failure_ret; eassumption).
  (* forget: the outcome of delete_memory is passed on *)
  unfold bind in Hrun at 1.
  match type of Hrun with
  | context [bind ?m ?k tr log] =>
      destruct (bind m k tr log) as [[e0|x] l] eqn:E
  end.
  - injection Hrun as <- <-. eapply bind_request_failure_ret; eassumption.
  - discriminate Hrun.
Qed.

(** C4 at a 404 answer with a JSON object: [get_memory] fails with an
    [APIError], which is a [MAIAError]. *)
Lemma covered_failures_are_MAIAErrors_witness :
  MAIAClient.call Sample.model_validate Sample.client (GetMemory "nonexistent")
    (Sample.always Sample.not_found) []
  = (inl (ExAPIError (mkAPIError 404 (VStr "memory not found") (VStr "NOT_FOUND") VNone)),
     [mkRequest (MAIAClient._client Sample.client) "GET" "/v1/memories/nonexistent"
        None None])
  /\ isinstance
       (ExAPIError (mkAPIError 404 (VStr "memory not found") (VStr "NOT_FOUND") VNone))
       MAIAError = true.
Proof.
  split; [vm_compute; reflexivity|].
  apply (covered_failures_are_MAIAErrors Sample.model_validate Sample.client
           (GetMemory "nonexistent") (Sample.always Sample.not_found) []
           [mkRequest (MAIAClient._client Sample.client) "GET"
              "/v1/memories/nonexistent" None None]).
  - vm_compute; reflexivity.
  - intros req _. simpl. split; [lia | right; eexists; reflexivity].
Defined.

(** C4, the input that refutes the claim as worded: a 200 answer whose body
    is not JSON makes [get_memory] fail with the decoder's error, which is
    not a [MAIAError]. *)
Lemma undecodable_success_body_escapes_taxonomy :
  MAIAClient.call Sample.model_validate Sample.client (GetMemory "mem-123")
    (Sample.always Sample.ok_html) []
  = (inl (ExJSONDecodeError "<html>"),
     [mkRequest (MAIAClient._client Sample.client) "GET" "/v1/memories/mem-123"
        None None])
  /\ isinstance (ExJSONDecodeError "<html>") MAIAError = false.
Proof. split; vm_compute; reflexivity. Qed.

(** C1 at [create_memory] with a namespace and an empty content. *)
Lemma required_fields_checked_before_sending_witness :
  MAIAClient.create_memory Sample.model_validate Sample.client
    (mkCreateMemoryInput "test" "" None None None None None)
    (Sample.always Sample.created) []
  = (inl (ExValidationError "content" "content is required"), []).
Proof.
  apply (proj1 (proj2 (required_fields_checked_before_sending
           Sample.model_validate Sample.client (Sample.always Sample.created) [])));
    [discriminate | reflexivity].
Defined.



(** C6 at [list_namespace_memories("default", limit=10, offset=0)]: the
    request carries [limit=10] and no [offset]. *)
Lemma pagination_only_when_set_witness :
  exists req,
    snd (MAIAClient.list_namespace_memories Sample.model_validate Sample.client
           "default" (Some (mkListOptions (Some 10) (Some 0)))
           (Sample.always Sample.created) [])
      = [req]
    /\ req_method req = "GET"
    /\ req_path req = "/v1/namespaces/" ++ quote "default" "" ++ "/memories"
    /\ pagination_sent (Some (mkListOptions (Some 10) (Some 0))) req.
Proof.
  apply (proj1 (proj2 (pagination_only_when_set Sample.model_validate Sample.client
           (Sample.always Sample.created) []))).
  discriminate.
Defined.

(** C9 at [create_memory] with only the required fields and a type. *)
Lemma unset_fields_are_omitted_witness :
  exists body,
    snd (MAIAClient.create_memory Sample.model_validate Sample.client
           (mkCreateMemoryInput "test" "Test memory" (Some SEMANTIC) None None None None)
           (Sample.always Sample.created) [])
      = [mkRequest (MAIAClient._client Sample.client) "POST" "/v1/memories"
           (Some (VDict body)) None]
    /\ no_null body
    /\ body !! "metadata" = None
    /\ body !! "tags" = None
    /\ body !! "confidence" = None
    /\ body !! "source" = None.
Proof.
  destruct (proj1 (unset_fields_are_omitted Sample.model_validate Sample.client
              (Sample.always Sample.created) [])
              (mkCreateMemoryInput "test" "Test memory" (Some SEMANTIC) None None None None)
              ltac:(discriminate) ltac:(discriminate))
    as (body & Hsent & Hnull & _ & Hm & Ht & Hc & Hs).
  exists body. repeat split; auto.
Defined.

(** Further runs of the client on the sample responses. *)

Example create_memory_created :
  MAIAClient.create_memory Sample.model_validate Sample.client
    (mkCreateMemoryInput "test" "Test memory" (Some SEMANTIC) None None None None)
    (Sample.always Sample.created) []
  = (inr (VDict Sample.memory_body),
     [mkRequest (MAIAClient._client Sample.client) "POST" "/v1/memories"
        (Some (VDict (<["type" := VStr "semantic"]>
                      (<["content" := VStr "Test memory"]>
                       (<["namespace" := VStr "test"]> ∅))))) None]).
Proof. vm_compute; reflexivity. Qed.

Example get_memory_unreachable :
  MAIAClient.get_memory Sample.model_validate Sample.client "mem-123"
    Sample.unreachable []
  = (inl (ExNetworkError "Request failed: connection refused"
            (Some (mkRequestError "connection refused"))),
     [mkRequest (MAIAClient._client Sample.client) "GET" "/v1/memories/mem-123"
        None None]).
Proof. vm_compute; reflexivity. Qed.

Example get_memory_bad_gateway :
  fst (MAIAClient.get_memory Sample.model_validate Sample.client "mem-123"
         (Sample.always Sample.bad_gateway_html) [])
  = inl (ExAPIError (mkAPIError 502 (VStr "<html>") VNone VNone)).
Proof. vm_compute; reflexivity. Qed.

Example get_memory_error_without_body :
  fst (MAIAClient.get_memory Sample.model_validate Sample.client "mem-123"
         (Sample.always (mkResponse 503 "" "" None)) [])
  = inl (ExAPIError (mkAPIError 503 (VStr "HTTP 503") VNone VNone)).
Proof. vm_compute; reflexivity. Qed.

Example delete_memory_no_content :
  fst (MAIAClient.delete_memory Sample.client "mem-123"
         (Sample.always Sample.no_content) [])
  = inr VNone.
Proof. vm_compute; reflexivity. Qed.

Example get_memory_error_with_json_array :
  fst (MAIAClient.get_memory Sample.model_validate Sample.client "mem-123"
         (Sample.always (mkResponse 500 "[]" "[]" (Some (VList [])))) [])
  = inl (ExAttributeError (VList []) "get").
Proof. vm_compute; reflexivity. Qed.

Example float_1_0_is_one : float_1_0 = binary_normalize 53 1024 1 0 false.
Proof. vm_compute; reflexivity. Qed.

Example float_30_0_is_thirty : float_30_0 = binary_normalize 53 1024 30 0 false.
Proof. vm_compute; reflexivity. Qed.

End Claims.

(** * Further properties of the client *)

Section RequestFacts.

Import Errors Types Http IO.
Local Open Scope io_scope.

(** [_request] sends once and hands back what [interpret] reads off the
    answer. *)
Lemma request_run (self : MAIAClient.t) method path body params tr log :
  MAIAClient._request self method path body params tr log
  = (interpret (tr log (mkRequest (MAIAClient._client self) method path body params)),
     (log ++ [mkRequest (MAIAClient._client self) method path body params])%list).
Proof.
  unfold MAIAClient._request, bind, request, interpret. cbn.
  destruct (tr log _) as [e|r]; [reflexivity|].
  destruct (status_code r >=? 400).
  - destruct (json r) as [[]|]; reflexivity.
  - destruct (str_truthy (content r)); [|reflexivity].
    destruct (json r); reflexivity.
Qed.

Lemma bind_request_run {B} (self : MAIAClient.t) method path body params
    (k : Any -> IO B) tr log :
  (x <- MAIAClient._request self method path body params ;; k x) tr log
  = match interpret (tr log (mkRequest (MAIAClient._client self) method path body params)) with
    | inl e =>
        (inl e, (log ++ [mkRequest (MAIAClient._client self) method path body params])%list)
    | inr x =>
        k x tr (log ++ [mkRequest (MAIAClient._client self) method path body params])%list
    end.
Proof. unfold bind at 1. rewrite request_run. reflexivity. Qed.

Lemma bind_request_lift {B} (self : MAIAClient.t) method path body params
    (f : Any -> Exn + B) tr log :
  (x <- MAIAClient._request self method path body params ;; lift (f x)) tr log
  = (match interpret (tr log (mkRequest (MAIAClient._client self) method path body params)) with
     | inl e => inl e
     | inr x => f x
     end,
     (log ++ [mkRequest (MAIAClient._client self) method path body params])%list).
Proof.
  rewrite bind_request_run. destruct (interpret _) as [e|x]; [reflexivity|].
  destruct (f x); reflexivity.
Qed.

Lemma bind_request_ret {B} (self : MAIAClient.t) method path body params
    (y : B) tr log :
  (_ <- MAIAClient._request self method path body params ;; ret y) tr log
  = (match interpret (tr log (mkRequest (MAIAClient._client self) method path body params)) with
     | inl e => inl e
     | inr _ => inr y
     end,
     (log ++ [mkRequest (MAIAClient._client self) method path body params])%list).
Proof. rewrite bind_request_run. destruct (interpret _); reflexivity. Qed.

Lemma forget_is_delete_memory (self : MAIAClient.t) id tr log :
  MAIAClient.forget self id tr log = MAIAClient.delete_memory self id tr log.
Proof.
  unfold MAIAClient.forget, MAIAClient.delete_memory.
  destruct (str_truthy id); [|reflexivity]. cbn [negb].
  unfold bind at 1. rewrite bind_request_run.
  destruct (interpret _); reflexivity.
Qed.

Lemma app_singleton_neq {A} (l : list A) (x : A) : (l ++ [x])%list <> l.
Proof.
  intros H. apply (f_equal (@List.length A)) in H.
  rewrite List.length_app in H. simpl in H. lia.
Qed.

End RequestFacts.

Section OperationFacts.

Import Errors Types Http IO.
Import Urllib Str.
Local Open Scope io_scope.

Variable model_validate : Model -> Any -> Exn + Any.
Variable self : MAIAClient.t.

(** Every operation either stops at a required-field check, or sends one
    request and finishes on its answer. *)
Lemma call_run (op : Operation) (tr : Transport) (log : list Request) :
  (exists field msg,
      MAIAClient.call model_validate self op tr log
      = (inl (ExValidationError field msg), log))
  \/ (exists method path body params,
      let req := mkRequest (MAIAClient._client self) method path body params in
      MAIAClient.call model_validate self op tr log
      = (match interpret (tr log req) with
         | inl e => inl e
         | inr x => finish model_validate op x
         end, (log ++ [req])%list)
      /\ ((method = "GET" \/ method = "DELETE") /\ body = None
          \/ (method = "POST" \/ method = "PUT") /\ exists d, body = Some (VDict d))
      /\ starts_with path "/" = true
      /\ (params <> None -> method = "GET" /\ starts_with path "/v1/namespaces" = true)).
Proof.
  destruct op; simpl; rewrite ?forget_is_delete_memory;
    unfold MAIAClient.health, MAIAClient.ready, MAIAClient.stats,
      MAIAClient.remember, MAIAClient.recall,
      MAIAClient.create_memory, MAIAClient.get_memory, MAIAClient.update_memory,
      MAIAClient.delete_memory, MAIAClient.search_memories,
      MAIAClient.create_namespace, MAIAClient.get_namespace,
      MAIAClient.update_namespace, MAIAClient.delete_namespace,
      MAIAClient.list_namespaces, MAIAClient.list_namespace_memories,
      MAIAClient.get_context;
    cbv zeta;
    repeat match goal with
      | |- context [negb (str_truthy ?s)] => destruct (str_truthy s); cbn [negb]
      end;
    try (left; do 2 eexists; reflexivity);
    right; do 4 eexists; cbv zeta;
    first [rewrite bind_request_lift | rewrite bind_request_ret];
    (split; [reflexivity|]);
    (split; [first [left; split; [auto|reflexivity]
                   | right; split; [auto|eexists; reflexivity]]|]);
    (split; [reflexivity|]);
    first [intros H; exfalso; apply H; reflexivity
          | intros _; split; reflexivity].
Qed.

End OperationFacts.

Section Extras.

Import Errors Types Http IO.
Import Urllib Str.
Local Open Scope io_scope.

(** X1. An operation never sends more than one request and never touches
    the requests already logged: either it stops at a required-field check,
    raising [ValidationError] with the log unchanged, or it adds exactly one
    request, made with the client configured by the constructor. *)
Theorem operations_send_at_most_one_request
    (model_validate : Model -> Any -> Exn + Any) (self : MAIAClient.t)
    (op : Operation) (tr : Transport) (log : list Request) :
  (snd (MAIAClient.call model_validate self op tr log) = log
   /\ exists field msg,
        fst (MAIAClient.call model_validate self op tr log)
        = inl (ExValidationError field msg))
  \/ (exists req,
        snd (MAIAClient.call model_validate self op tr log) = (log ++ [req])%list
        /\ req_client req = MAIAClient._client self).
Proof.
  destruct (call_run model_validate self op tr log)
    as [(f & m & ->) | (me & p & b & q & H & _)].
  - left. split; [reflexivity|]. exists f, m. reflexivity.
  - right. cbv zeta in H. rewrite H. eexists. split; reflexivity.
Qed.

(** X2. The request an operation sends has one of the four methods GET,
    POST, PUT, DELETE and a path that starts with "/"; it carries no body
    when the method is GET or DELETE and a JSON object when it is POST or
    PUT; it carries query parameters only as a GET under "/v1/namespaces". *)
Theorem request_shape_follows_method
    (model_validate : Model -> Any -> Exn + Any) (self : MAIAClient.t)
    (op : Operation) (tr : Transport) (log : list Request) (req : Request)
    (Hsent : snd (MAIAClient.call model_validate self op tr log) = (log ++ [req])%list) :
  ((req_method req = "GET" \/ req_method req = "DELETE") /\ req_json req = None
   \/ (req_method req = "POST" \/ req_method req = "PUT")
      /\ exists d, req_json req = Some (VDict d))
  /\ starts_with (req_path req) "/" = true
  /\ (req_params req <> None ->
      req_method req = "GET" /\ starts_with (req_path req) "/v1/namespaces" = true).
Proof.
  destruct (call_run model_validate self op tr log)
    as [(f & m & H) | (me & p & b & q & H & Hshape)].
  - rewrite H in Hsent. simpl in Hsent. symmetry in Hsent.
    now apply app_singleton_neq in Hsent.
  - cbv zeta in H. rewrite H in Hsent. simpl in Hsent.
    apply app_inv_head in Hsent. injection Hsent as <-. exact Hshape.
Qed.

(** X2 at [update_memory("m 1", content="new")]. *)
Lemma request_shape_follows_method_witness :
  snd (MAIAClient.call Sample.model_validate Sample.client
         (UpdateMemory "m 1" (mkUpdateMemoryInput (Some "new") None None None))
         (Sample.always Sample.created) [])
  = [Sample.update_request]
  /\ req_method Sample.update_request = "PUT"
  /\ req_json Sample.update_request = Some (VDict {["content" := VStr "new"]})
  /\ starts_with (req_path Sample.update_request) "/" = true.
Proof.
  split; [reflexivity|]. split; [reflexivity|]. split; [reflexivity|].
  exact (proj1 (proj2 (request_shape_follows_method Sample.model_validate Sample.client
    (UpdateMemory "m 1" (mkUpdateMemoryInput (Some "new") None None None))
    (Sample.always Sample.created) [] Sample.update_request eq_refl))).
Defined.

(** X3. When the request an operation sent meets a transport failure (no
    response), the operation raises [NetworkError] whose message is
    "Request failed: " followed by the failure's text and whose cause is
    that failure. *)
Theorem transport_failure_raises_NetworkError
    (model_validate : Model -> Any -> Exn + Any) (self : MAIAClient.t)
    (op : Operation) (tr : Transport) (log : list Request) (req : Request)
    (cause : RequestError)
    (Hsent : snd (MAIAClient.call model_validate self op tr log) = (log ++ [req])%list)
    (Hfail : tr log req = inl cause) :
  fst (MAIAClient.call model_validate self op tr log)
  = inl (ExNetworkError ("Request failed: " ++ request_error_str cause) (Some cause)).
Proof.
  destruct (call_run model_validate self op tr log)
    as [(f & m & H) | (me & p & b & q & H & _)].
  - rewrite H in Hsent. simpl in Hsent. symmetry in Hsent.
    now apply app_singleton_neq in Hsent.
  - cbv zeta in H. rewrite H in Hsent |- *. simpl in Hsent |- *.
    apply app_inv_head in Hsent. injection Hsent as <-.
    rewrite Hfail. reflexivity.
Qed.

(** X3 at [get_memory("mem-123")] on a network that is down. *)
Lemma transport_failure_raises_NetworkError_witness :
  fst (MAIAClient.call Sample.model_validate Sample.client (GetMemory "mem-123")
         Sample.unreachable [])
  = inl (ExNetworkError "Request failed: connection refused"
           (Some (mkRequestError "connection refused"))).
Proof.
  exact (transport_failure_raises_NetworkError Sample.model_validate Sample.client
    (GetMemory "mem-123") Sample.unreachable [] Sample.get_request
    (mkRequestError "connection refused") eq_refl eq_refl).
Defined.

(** X4. [_request] returns a value exactly when a response arrived with
    status below 400 whose body is empty or parses as JSON; in every other
    case it raises. *)
Theorem request_returns_iff
    (self : MAIAClient.t) (method path : string) (body : option Any)
    (params : option (gmap string Any)) (tr : Transport) (log : list Request) :
  (exists v, fst (MAIAClient._request self method path body params tr log) = inr v)
  <-> (exists r,
        tr log (mkRequest (MAIAClient._client self) method path body params) = inr r
        /\ Http.status_code r < 400
        /\ (content r = "" \/ exists v, json r = Some v)).
Proof.
  rewrite request_run. simpl. unfold interpret.
  destruct (tr log _) as [err|r].
  - split; [intros [v Hv]; discriminate | intros (r & Hr & _); discriminate].
  - destruct (Z.geb_spec (Http.status_code r) 400) as [Hs|Hs].
    + split.
      * intros [v Hv]. destruct (json r) as [[]|]; discriminate.
      * intros (r' & Hr & Hlt & _). injection Hr as <-. lia.
    + destruct (str_truthy (content r)) eqn:Hc.
      * apply str_truthy_true in Hc. split.
        -- intros [v Hv]. exists r. split; [reflexivity|]. split; [lia|].
           right. destruct (json r) as [x|]; [eauto | discriminate].
        -- intros (r' & Hr & _ & [He | [v Hv]]); injection Hr as <-;
             [contradiction | rewrite Hv; eauto].
      * apply str_truthy_false in Hc. split; [|eauto].
        intros _. exists r. split; [reflexivity|]. split; [lia | left; exact Hc].
Qed.

Lemma request_raise_cases
    (self : MAIAClient.t) (method path : string) (body : option Any)
    (params : option (gmap string Any)) (tr : Transport) (log : list Request)
    (e : Exn)
    (Hraise : fst (MAIAClient._request self method path body params tr log) = inl e) :
  let out := tr log (mkRequest (MAIAClient._client self) method path body params) in
  (exists cause, out = inl cause
     /\ e = ExNetworkError ("Request failed: " ++ request_error_str cause) (Some cause))
  \/ (exists r d, out = inr r /\ Http.status_code r >= 400
        /\ (json r = None \/ exists o, json r = Some (VDict o))
        /\ e = ExAPIError d /\ Errors.status_code d = Http.status_code r)
  \/ (exists r v, out = inr r /\ Http.status_code r >= 400
        /\ json r = Some v /\ (forall o, v <> VDict o)
        /\ e = ExAttributeError v "get")
  \/ (exists r, out = inr r /\ Http.status_code r < 400
        /\ content r <> "" /\ json r = None
        /\ e = ExJSONDecodeError (text r)).
Proof.
  cbv zeta. rewrite request_run in Hraise. simpl in Hraise. unfold interpret in Hraise.
  destruct (tr log _) as [err|r].
  - left. injection Hraise as <-. eauto.
  - right. destruct (Z.geb_spec (Http.status_code r) 400) as [Hs|Hs].
    + destruct (json r) as [v|] eqn:Hj.
      * destruct v; injection Hraise as <-;
          try (right; left; exists r; eexists;
               split; [reflexivity|]; split; [lia|]; split; [exact Hj|];
               split; [intros o; discriminate | reflexivity]).
        left. exists r. eexists. repeat split; try lia; eauto.
      * injection Hraise as <-. left. exists r. eexists. repeat split; try lia; eauto.
    + right; right. destruct (str_truthy (content r)) eqn:Hc; [|discriminate].
      apply str_truthy_true in Hc.
      destruct (json r) eqn:Hj; [discriminate|]. injection Hraise as <-.
      exists r. repeat split; auto; lia.
Qed.

(** X5. A response with status >= 400 whose body is valid JSON but not an
    object (an array, a string, a number, a boolean, null) makes [_request]
    fail on [data.get] with an [AttributeError], after its one request: the
    [except ValueError] clause does not catch it, so the caller gets neither
    an [APIError] nor any other [MAIAError]. *)
Theorem non_object_error_body_raises_AttributeError
    (self : MAIAClient.t) (method path : string) (body : option Any)
    (params : option (gmap string Any)) (tr : Transport) (log : list Request)
    (r : Response) (v : Any)
    (Hanswer : tr log (mkRequest (MAIAClient._client self) method path body params)
               = inr r)
    (Hstatus : Http.status_code r >= 400)
    (Hjson : json r = Some v)
    (Hother : forall o, v <> VDict o) :
  MAIAClient._request self method path body params tr log
  = (inl (ExAttributeError v "get"),
     (log ++ [mkRequest (MAIAClient._client self) method path body params])%list)
  /\ isinstance (ExAttributeError v "get") APIError = false
  /\ isinstance (ExAttributeError v "get") MAIAError = false.
Proof.
  rewrite request_run, Hanswer. unfold interpret.
  rewrite (proj2 (Z.geb_le _ _)) by lia. rewrite Hjson.
  split; [|split; reflexivity].
  destruct v; try reflexivity. exfalso. exact (Hother d eq_refl).
Qed.

(** X5 at a 500 answer whose body is the JSON array [[]]. *)
Lemma non_object_error_body_raises_AttributeError_witness :
  MAIAClient._request Sample.client "GET" "/v1/memories/mem-123" None None
    (Sample.always (mkResponse 500 "[]" "[]" (Some (VList [])))) []
  = (inl (ExAttributeError (VList []) "get"), [Sample.get_request]).
Proof.
  exact (proj1 (non_object_error_body_raises_AttributeError Sample.client "GET"
    "/v1/memories/mem-123" None None
    (Sample.always (mkResponse 500 "[]" "[]" (Some (VList [])))) []
    (mkResponse 500 "[]" "[]" (Some (VList []))) (VList []) eq_refl
    ltac:(simpl; lia) eq_refl ltac:(intros o; discriminate))).
Defined.

(** X6. An [APIError] raised by [_request] is classified by the status of
    the response it came from: it is a server error exactly when the status
    is at least 500, it is not-found for a 404, already-exists for a 409 and
    invalid-input for a 400, whatever the body says; and it is of class
    [APIError] itself, not one of its subclasses. *)
Theorem raised_APIError_follows_status
    (self : MAIAClient.t) (method path : string) (body : option Any)
    (params : option (gmap string Any)) (tr : Transport) (log : list Request)
    (e : Exn) (d : APIErrorData)
    (Hraise : fst (MAIAClient._request self method path body params tr log) = inl e)
    (Hapi : api_error e = Some d) :
  exists r,
    tr log (mkRequest (MAIAClient._client self) method path body params) = inr r
    /\ class_of e = APIError
    /\ Errors.status_code d = Http.status_code r
    /\ Http.status_code r >= 400
    /\ (is_server_error d = true <-> Http.status_code r >= 500)
    /\ (Http.status_code r = 404 -> is_not_found d = true)
    /\ (Http.status_code r = 409 -> is_already_exists d = true)
    /\ (Http.status_code r = 400 -> is_invalid_input d = true).
Proof.
  destruct (request_raise_cases self method path body params tr log e Hraise)
    as [(c & _ & ->) | [(r & d' & Hr & Hs & _ & -> & Hd)
        | [(r & v & _ & _ & _ & _ & ->) | (r & _ & _ & _ & _ & ->)]]];
    try discriminate.
  injection Hapi as ->. exists r. split; [exact Hr|]. split; [reflexivity|].
  split; [exact Hd|]. split; [exact Hs|].
  unfold is_server_error, is_not_found, is_already_exists, is_invalid_input.
  rewrite Hd. repeat split.
  - intros H. apply Z.geb_le in H. lia.
  - intros H. apply Z.geb_le. lia.
  - intros ->. reflexivity.
  - intros ->. reflexivity.
  - intros ->. reflexivity.
Qed.

(** X6 at the sample 404 answer. *)
Lemma raised_APIError_follows_status_witness :
  exists r,
    Sample.always Sample.not_found [] Sample.get_request = inr r
    /\ Http.status_code r = 404
    /\ is_not_found
         (mkAPIError 404 (VStr "memory not found") (VStr "NOT_FOUND") VNone) = true.
Proof.
  destruct (raised_APIError_follows_status Sample.client "GET" "/v1/memories/mem-123"
              None None (Sample.always Sample.not_found) []
              (ExAPIError (mkAPIError 404 (VStr "memory not found") (VStr "NOT_FOUND") VNone))
              (mkAPIError 404 (VStr "memory not found") (VStr "NOT_FOUND") VNone)
              eq_refl eq_refl)
    as (r & Hr & _ & Hd & _ & _ & Hnf & _).
  exists r. split; [exact Hr|]. split; [symmetry; exact Hd|].
  apply Hnf. symmetry; exact Hd.
Defined.

(** X7. The operations that return nothing ([ready], [delete_memory],
    [delete_namespace], [forget]) still read the body of a successful
    answer: on a status below 400 they return [None] when the body is empty
    or parses as JSON, whatever it holds, and raise the decoder's error when
    a non-empty body is not JSON. *)
Theorem discarding_operations_still_decode
    (model_validate : Model -> Any -> Exn + Any) (self : MAIAClient.t)
    (op : Operation) (tr : Transport) (log : list Request) (req : Request)
    (r : Response)
    (Hop : response_model op = None)
    (Hsent : snd (MAIAClient.call model_validate self op tr log) = (log ++ [req])%list)
    (Hanswer : tr log req = inr r)
    (Hstatus : Http.status_code r < 400) :
  (content r = "" \/ (exists v, json r = Some v) ->
     fst (MAIAClient.call model_validate self op tr log) = inr VNone)
  /\ (content r <> "" -> json r = None ->
     fst (MAIAClient.call model_validate self op tr log)
     = inl (ExJSONDecodeError (text r))).
Proof.
  destruct (call_run model_validate self op tr log)
    as [(f & m & H) | (me & p & b & q & H & _)].
  - rewrite H in Hsent. simpl in Hsent. symmetry in Hsent.
    now apply app_singleton_neq in Hsent.
  - cbv zeta in H. rewrite H in Hsent |- *. simpl in Hsent |- *.
    apply app_inv_head in Hsent. injection Hsent as <-.
    rewrite Hanswer. unfold interpret, finish. rewrite Hop.
    destruct (Z.geb_spec (Http.status_code r) 400) as [Hs|Hs]; [lia|].
    split.
    + intros [Hc | [v Hv]].
      * rewrite Hc. reflexivity.
      * rewrite Hv. destruct (str_truthy (content r)); reflexivity.
    + intros Hc Hj. apply str_truthy_true in Hc. rewrite Hc, Hj. reflexivity.
Qed.

(** X7 at [ready()] answered 200 with the plain text "<html>". *)
Lemma discarding_operations_still_decode_witness :
  fst (MAIAClient.call Sample.model_validate Sample.client Ready
         (Sample.always Sample.ok_html) [])
  = inl (ExJSONDecodeError "<html>").
Proof.
  apply (proj2 (discarding_operations_still_decode Sample.model_validate Sample.client
           Ready (Sample.always Sample.ok_html) []
           (mkRequest (MAIAClient._client Sample.client) "GET" "/ready" None None)
           Sample.ok_html eq_refl eq_refl eq_refl ltac:(simpl; lia)));
    [discriminate | reflexivity].
Defined.

(** X8. An operation that returns a model hands the validator exactly what
    [_request] returned and gives back the validator's verdict unchanged:
    on a status below 400 the validator receives the parsed body, or [None]
    when the body is empty. *)
Theorem validated_operations_pass_body_to_validator
    (model_validate : Model -> Any -> Exn + Any) (self : MAIAClient.t)
    (op : Operation) (cls : Model) (tr : Transport) (log : list Request)
    (req : Request) (r : Response) (v : Any)
    (Hop : response_model op = Some cls)
    (Hsent : snd (MAIAClient.call model_validate self op tr log) = (log ++ [req])%list)
    (Hanswer : tr log req = inr r)
    (Hstatus : Http.status_code r < 400)
    (Hbody : body_value r = Some v) :
  MAIAClient.call model_validate self op tr log
  = (model_validate cls v, (log ++ [req])%list).
Proof.
  destruct (call_run model_validate self op tr log)
    as [(f & m & H) | (me & p & b & q & H & _)].
  - rewrite H in Hsent. simpl in Hsent. symmetry in Hsent.
    now apply app_singleton_neq in Hsent.
  - cbv zeta in H. rewrite H in Hsent |- *. simpl in Hsent.
    apply app_inv_head in Hsent. injection Hsent as <-.
    rewrite Hanswer. unfold interpret, finish. rewrite Hop.
    destruct (Z.geb_spec (Http.status_code r) 400) as [Hs|Hs]; [lia|].
    unfold body_value in Hbody.
    destruct (str_truthy (content r)).
    + rewrite Hbody. reflexivity.
    + injection Hbody as <-. reflexivity.
Qed.

(** X8 at [get_memory("mem-123")] answered 204 with no body: the validator
    is handed [None]. *)
Lemma validated_operations_pass_body_to_validator_witness :
  MAIAClient.call Sample.model_validate Sample.client (GetMemory "mem-123")
    (Sample.always Sample.no_content) []
  = (inl (ExPydanticValidationError "model" VNone), [Sample.get_request]).
Proof.
  exact (validated_operations_pass_body_to_validator Sample.model_validate Sample.client
    (GetMemory "mem-123") Memory (Sample.always Sample.no_content) []
    Sample.get_request Sample.no_content VNone eq_refl eq_refl eq_refl
    ltac:(simpl; lia) eq_refl).
Defined.

(** X9. [NotFoundError(resource, id)] is a 404 [APIError] with code
    "NOT_FOUND": it is not-found and nothing else, it is caught as
    [APIError] and as [MAIAError], and it prints as
    "<resource> not found: <id> (NOT_FOUND)".  [AlreadyExistsError] is the
    same with 409, "ALREADY_EXISTS" and "already exists". *)
Theorem local_error_subtypes (resource id : string) :
  (exists d,
      api_error (NotFoundError_init resource id) = Some d
      /\ Errors.status_code d = 404 /\ code d = VStr "NOT_FOUND" /\ details d = VNone
      /\ is_not_found d = true /\ is_already_exists d = false
      /\ is_invalid_input d = false /\ is_server_error d = false
      /\ __str__ d = Some (resource ++ " not found: " ++ id ++ " (NOT_FOUND)"))
  /\ isinstance (NotFoundError_init resource id) APIError = true
  /\ isinstance (NotFoundError_init resource id) MAIAError = true
  /\ (exists d,
      api_error (AlreadyExistsError_init resource id) = Some d
      /\ Errors.status_code d = 409 /\ code d = VStr "ALREADY_EXISTS" /\ details d = VNone
      /\ is_already_exists d = true /\ is_not_found d = false
      /\ is_invalid_input d = false /\ is_server_error d = false
      /\ __str__ d = Some (resource ++ " already exists: " ++ id ++ " (ALREADY_EXISTS)"))
  /\ isinstance (AlreadyExistsError_init resource id) APIError = true
  /\ isinstance (AlreadyExistsError_init resource id) MAIAError = true.
Proof.
  assert (Happ : forall a b c : string, (a ++ b) ++ c = a ++ (b ++ c)).
  { induction a as [|x a IH]; intros b c; [reflexivity|].
    rewrite !append_cons, IH. reflexivity. }
  split; [|split; [reflexivity|split; [reflexivity|split; [|split; reflexivity]]]].
  - eexists. split; [reflexivity|]. repeat split.
    unfold __str__; simpl. rewrite !Happ. reflexivity.
  - eexists. split; [reflexivity|]. repeat split.
    unfold __str__; simpl. rewrite !Happ. reflexivity.
Qed.

(** X10. The exception classes form a tree under [MAIAError]: [issubclass]
    is reflexive and transitive and holds between a class and its base; the
    subclasses of [MAIAError] are the six classes of the error module and
    no other; the subclasses of [APIError] are itself, [NotFoundError] and
    [AlreadyExistsError], so catching [APIError] never catches a
    [ValidationError] or a [NetworkError]. *)
Theorem error_class_tree :
  (forall c, issubclass c c = true)
  /\ (forall a b c, issubclass a b = true -> issubclass b c = true ->
                    issubclass a c = true)
  /\ (forall c b, base c = Some b -> issubclass c b = true)
  /\ (forall a b, issubclass a b = true -> issubclass b a = true -> a = b)
  /\ (forall c, issubclass c MAIAError = true <->
        c = MAIAError \/ c = APIError \/ c = ValidationError \/ c = NetworkError
        \/ c = NotFoundError \/ c = AlreadyExistsError)
  /\ (forall c, issubclass c APIError = true <->
        c = APIError \/ c = NotFoundError \/ c = AlreadyExistsError)
  /\ (forall c, issubclass c Exception = true).
Proof.
  repeat split.
  - intros []; reflexivity.
  - intros [] [] []; vm_compute; congruence.
  - intros [] b H; try discriminate H; injection H as <-; reflexivity.
  - intros [] []; vm_compute; congruence.
  - destruct c; vm_compute; intros H; try discriminate; tauto.
  - intros [-> | [-> | [-> | [-> | [-> | ->]]]]]; reflexivity.
  - destruct c; vm_compute; intros H; try discriminate; tauto.
  - intros [-> | [-> | ->]]; reflexivity.
  - intros []; reflexivity.
Qed.

Lemma append_inv_head (p a b : string) : p ++ a = p ++ b -> a = b.
Proof.
  induction p as [|c p IH]; [rewrite !append_nil_l; auto|].
  rewrite !append_cons. intros H. injection H as H. auto.
Qed.

Lemma length_append (a b : string) :
  String.length (a ++ b) = (String.length a + String.length b)%nat.
Proof.
  induction a as [|c a IH]; [reflexivity|].
  rewrite append_cons. simpl. now rewrite IH.
Qed.

Lemma append_inv_tail (s a b : string) : a ++ s = b ++ s -> a = b.
Proof.
  revert b. induction a as [|c a IH]; intros [|d b] H.
  - reflexivity.
  - apply (f_equal String.length) in H. rewrite append_nil_l, length_append in H.
    simpl in H. lia.
  - apply (f_equal String.length) in H. rewrite append_nil_l, length_append in H.
    simpl in H. lia.
  - rewrite !append_cons in H. injection H as -> H. f_equal. auto.
Qed.

Lemma quote_inj (a b : string) : quote a "" = quote b "" -> a = b.
Proof. intros H. rewrite <- (unquote_quote a), <- (unquote_quote b), H. reflexivity. Qed.

(** X11. Two identifiers are sent to the same place only when they are the
    same identifier: [quote] with an empty [safe] set is one-to-one, and so
    are the requests of [get_memory], [delete_memory], [get_namespace],
    [delete_namespace] and [list_namespace_memories] as functions of the
    identifier. *)
Theorem distinct_identifiers_distinct_requests
    (model_validate : Model -> Any -> Exn + Any) (self : MAIAClient.t)
    (tr : Transport) (log : list Request) (a b : string) :
  (quote a "" = quote b "" -> a = b)
  /\ (snd (MAIAClient.get_memory model_validate self a tr log)
      = snd (MAIAClient.get_memory model_validate self b tr log) -> a = b)
  /\ (snd (MAIAClient.delete_memory self a tr log)
      = snd (MAIAClient.delete_memory self b tr log) -> a = b)
  /\ (snd (MAIAClient.get_namespace model_validate self a tr log)
      = snd (MAIAClient.get_namespace model_validate self b tr log) -> a = b)
  /\ (snd (MAIAClient.delete_namespace self a tr log)
      = snd (MAIAClient.delete_namespace self b tr log) -> a = b)
  /\ (forall options,
      snd (MAIAClient.list_namespace_memories model_validate self a options tr log)
      = snd (MAIAClient.list_namespace_memories model_validate self b options tr log)
      -> a = b).
Proof.
  split; [apply quote_inj|].
  unfold MAIAClient.get_memory, MAIAClient.delete_memory, MAIAClient.get_namespace,
    MAIAClient.delete_namespace, MAIAClient.list_namespace_memories.
  destruct (str_truthy a) eqn:Ha, (str_truthy b) eqn:Hb; cbn [negb];
    repeat split; intros;
    try (apply str_truthy_false in Ha, Hb; congruence);
    repeat match goal with
      | H : context [snd (bind _ _ _ _)] |- _ =>
          cbv zeta in H; rewrite ?bind_lift_log, ?bind_ret_log, ?request_once in H
      end;
    try match goal with
      | H : snd (raise _ _ ?l) = (?l ++ _)%list |- _ =>
          simpl in H; symmetry in H; now apply app_singleton_neq in H
      | H : (?l ++ _)%list = snd (raise _ _ ?l) |- _ =>
          simpl in H; now apply app_singleton_neq in H
      end;
    match goal with
    | H : (log ++ [_])%list = (log ++ [_])%list |- _ =>
        apply app_inv_head in H; injection H as H
    end;
    match goal with
    | H : _ ++ _ = _ ++ _ |- _ =>
        apply append_inv_head in H; try apply append_inv_tail in H;
        exact (quote_inj _ _ H)
    end.
Qed.

Lemma quote_unreserved (s : string) :
  all_chars always_safe s = true -> quote s "" = s.
Proof.
  induction s as [|c s IH]; simpl; intros H; [reflexivity|].
  apply andb_true_iff in H as [Hc Hs].
  unfold quote_byte. rewrite Hc. simpl. rewrite append_cons, append_nil_l, IH by exact Hs.
  reflexivity.
Qed.

(** X12. An identifier made of letters, digits and [_.-~] only goes into
    the path as it is: [quote] leaves it unchanged, so [get_memory] asks for
    "/v1/memories/<id>" and [get_namespace] for "/v1/namespaces/<id>". *)
Theorem unreserved_identifiers_sent_verbatim
    (model_validate : Model -> Any -> Exn + Any) (self : MAIAClient.t)
    (tr : Transport) (log : list Request) (id : string)
    (Hid : id <> "") (Hsafe : all_chars always_safe id = true) :
  quote id "" = id
  /\ snd (MAIAClient.get_memory model_validate self id tr log)
     = (log ++ [mkRequest (MAIAClient._client self) "GET" ("/v1/memories/" ++ id)
                  None None])%list
  /\ snd (MAIAClient.get_namespace model_validate self id tr log)
     = (log ++ [mkRequest (MAIAClient._client self) "GET" ("/v1/namespaces/" ++ id)
                  None None])%list.
Proof.
  apply str_truthy_true in Hid.
  unfold MAIAClient.get_memory, MAIAClient.get_namespace.
  rewrite Hid; cbn [negb]. rewrite !bind_lift_log, !request_once.
  rewrite (quote_unreserved id Hsafe). auto.
Qed.

(** X12 at the identifier "mem-123". *)
Lemma unreserved_identifiers_sent_verbatim_witness :
  quote "mem-123" "" = "mem-123"
  /\ snd (MAIAClient.get_memory Sample.model_validate Sample.client "mem-123"
            (Sample.always Sample.created) [])
     = [Sample.get_request].
Proof.
  pose proof (unreserved_identifiers_sent_verbatim Sample.model_validate Sample.client
                (Sample.always Sample.created) [] "mem-123"
                ltac:(discriminate) eq_refl) as (Hq & Hm & _).
  split; [exact Hq | exact Hm].
Defined.

Lemma rstrip_idempotent (s chars : string) :
  rstrip (rstrip s chars) chars = rstrip s chars.
Proof.
  induction s as [|c s IH]; simpl; [reflexivity|].
  destruct (rstrip s chars) as [|k kept] eqn:Hr.
  - destruct (mem_char c chars) eqn:Hc; simpl; [reflexivity|]. now rewrite Hc.
  - remember (String k kept) as t eqn:Ht. simpl. rewrite IH. now subst t.
Qed.

Lemma rstrip_all_stripped (n : nat) (c : ascii) (chars : string) :
  mem_char c chars = true -> rstrip (repeat_char c n) chars = "".
Proof.
  intros Hc. induction n as [|n IH]; simpl; [reflexivity|]. now rewrite IH, Hc.
Qed.

(** X13. Constructing a client from the base URL another client stored
    gives that client again (stripping is idempotent); a base URL made of
    "/" characters only is stored as the empty string; the timeout and the
    headers are kept as given, no headers and empty headers being the same
    configuration. *)
Theorem init_is_idempotent
    (url : string) (timeout : spec_float) (headers : option (gmap string string)) :
  MAIAClient.__init__ (MAIAClient.base_url (MAIAClient.__init__ url timeout headers))
    timeout headers
  = MAIAClient.__init__ url timeout headers
  /\ (forall n, MAIAClient.base_url
                  (MAIAClient.__init__ (repeat_char "/" n) timeout headers) = "")
  /\ client_timeout (MAIAClient._client (MAIAClient.__init__ url timeout headers))
     = timeout
  /\ (forall h, client_headers
                  (MAIAClient._client (MAIAClient.__init__ url timeout (Some h))) = h)
  /\ MAIAClient.__init__ url timeout None = MAIAClient.__init__ url timeout (Some ∅).
Proof.
  unfold MAIAClient.__init__; simpl. rewrite rstrip_idempotent.
  repeat split. intros n. apply rstrip_all_stripped. reflexivity.
Qed.

(** X14. What the convenience wrappers put on the wire: [remember] posts to
    "/v1/memories" the object with exactly the five entries namespace,
    content, type "semantic", confidence 1.0 and source "user" (no metadata,
    no tags); [recall] with a query and nothing else posts to "/v1/context"
    the object whose only entry is the query. *)
Theorem wrapper_request_bodies
    (model_validate : Model -> Any -> Exn + Any) (self : MAIAClient.t)
    (tr : Transport) (log : list Request) :
  (forall namespace content, namespace <> "" -> content <> "" ->
     exists body,
       snd (MAIAClient.remember model_validate self namespace content tr log)
       = (log ++ [mkRequest (MAIAClient._client self) "POST" "/v1/memories"
                    (Some (VDict body)) None])%list
       /\ body !! "namespace" = Some (VStr namespace)
       /\ body !! "content" = Some (VStr content)
       /\ body !! "type" = Some (VStr "semantic")
       /\ body !! "confidence" = Some (VFloat float_1_0)
       /\ body !! "source" = Some (VStr "user")
       /\ size body = 5%nat)
  /\ (forall query, query <> "" ->
       snd (MAIAClient.recall model_validate self query None None None None None tr log)
       = (log ++ [mkRequest (MAIAClient._client self) "POST" "/v1/context"
                    (Some (VDict {["query" := VStr query]})) None])%list).
Proof.
  split.
  - intros namespace content Hn Hc. apply str_truthy_true in Hn, Hc.
    eexists. unfold MAIAClient.remember, MAIAClient.create_memory. simpl.
    rewrite Hn, Hc; cbn [negb]. rewrite bind_lift_log, request_once.
    split; [reflexivity|]. unfold dump_CreateMemoryInput; simpl.
    repeat split; simplify_map_eq; reflexivity.
  - intros query Hq. apply str_truthy_true in Hq.
    unfold MAIAClient.recall, MAIAClient.get_context. simpl.
    rewrite Hq; cbn [negb]. rewrite bind_lift_log, request_once. reflexivity.
Qed.

(** X14 at [remember("default", "User prefers dark mode")]. *)
Lemma wrapper_request_bodies_witness :
  exists body,
    snd (MAIAClient.remember Sample.model_validate Sample.client
           "default" "User prefers dark mode" (Sample.always Sample.created) [])
    = [mkRequest (MAIAClient._client Sample.client) "POST" "/v1/memories"
         (Some (VDict body)) None]
    /\ body !! "type" = Some (VStr "semantic")
    /\ size body = 5%nat.
Proof.
  destruct (proj1 (wrapper_request_bodies Sample.model_validate Sample.client
                     (Sample.always Sample.created) [])
              "default" "User prefers dark mode" ltac:(discriminate) ltac:(discriminate))
    as (body & Hsent & _ & _ & Ht & _ & _ & Hsize).
  exists body. auto.
Defined.

(** X15. A namespace configuration is never sent empty: its
    [inherit_from_parent] flag, which has the default [False] and is not
    optional, is written in every dump.  So [update_namespace] always sends
    the flag, and [create_namespace] does whenever a configuration is given;
    when the caller built the configuration without naming the flag, the
    value sent is [false], and [NamespaceConfig()] is sent as the object
    whose only entry is that [false]. *)
Theorem inherit_from_parent_always_sent
    (model_validate : Model -> Any -> Exn + Any) (self : MAIAClient.t)
    (tr : Transport) (log : list Request) :
  (forall c, dump_NamespaceConfig c !! "inherit_from_parent"
             = Some (VBool (nc_inherit_from_parent c)))
  /\ (forall token_budget max_memories retention_days allowed_types custom_scoring,
       dump_NamespaceConfig
         (NamespaceConfig_init token_budget max_memories retention_days allowed_types
            None custom_scoring) !! "inherit_from_parent"
       = Some (VBool false))
  /\ dump_NamespaceConfig (NamespaceConfig_init None None None None None None)
     = {["inherit_from_parent" := VBool false]}
  /\ (forall id input, id <> "" ->
       exists cfg,
         snd (MAIAClient.update_namespace model_validate self id input tr log)
         = (log ++ [mkRequest (MAIAClient._client self) "PUT"
                      ("/v1/namespaces/" ++ Urllib.quote id "")
                      (Some (VDict {["config" := VDict cfg]})) None])%list
         /\ cfg !! "inherit_from_parent"
            = Some (VBool (nc_inherit_from_parent (un_config input))))
  /\ (forall id token_budget max_memories retention_days allowed_types custom_scoring,
       id <> "" ->
       exists cfg,
         snd (MAIAClient.update_namespace model_validate self id
                (mkUpdateNamespaceInput
                   (NamespaceConfig_init token_budget max_memories retention_days
                      allowed_types None custom_scoring)) tr log)
         = (log ++ [mkRequest (MAIAClient._client self) "PUT"
                      ("/v1/namespaces/" ++ Urllib.quote id "")
                      (Some (VDict {["config" := VDict cfg]})) None])%list
         /\ cfg !! "inherit_from_parent" = Some (VBool false))
  /\ (forall name parent template c, name <> "" ->
       exists body cfg,
         snd (MAIAClient.create_namespace model_validate self
                (mkCreateNamespaceInput name parent template (Some c)) tr log)
         = (log ++ [mkRequest (MAIAClient._client self) "POST" "/v1/namespaces"
                      (Some (VDict body)) None])%list
         /\ body !! "config" = Some (VDict cfg)
         /\ cfg !! "inherit_from_parent" = Some (VBool (nc_inherit_from_parent c)))
  /\ (forall name parent template token_budget max_memories retention_days
             allowed_types custom_scoring, name <> "" ->
       exists body cfg,
         snd (MAIAClient.create_namespace model_validate self
                (mkCreateNamespaceInput name parent template
                   (Some (NamespaceConfig_init token_budget max_memories retention_days
                            allowed_types None custom_scoring))) tr log)
         = (log ++ [mkRequest (MAIAClient._client self) "POST" "/v1/namespaces"
                      (Some (VDict body)) None])%list
         /\ body !! "config" = Some (VDict cfg)
         /\ cfg !! "inherit_from_parent" = Some (VBool false)).
Proof.
  assert (Hcfg : forall c, dump_NamespaceConfig c !! "inherit_from_parent"
                           = Some (VBool (nc_inherit_from_parent c))).
  { intros c. unfold dump_NamespaceConfig.
    rewrite lookup_put_ne by discriminate. apply lookup_insert_eq. }
  assert (Hupd : forall id input, id <> "" ->
       exists cfg,
         snd (MAIAClient.update_namespace model_validate self id input tr log)
         = (log ++ [mkRequest (MAIAClient._client self) "PUT"
                      ("/v1/namespaces/" ++ Urllib.quote id "")
                      (Some (VDict {["config" := VDict cfg]})) None])%list
         /\ cfg !! "inherit_from_parent"
            = Some (VBool (nc_inherit_from_parent (un_config input)))).
  { intros id input Hid. apply str_truthy_true in Hid.
    exists (dump_NamespaceConfig (un_config input)).
    unfold MAIAClient.update_namespace. rewrite Hid; cbn [negb].
    rewrite bind_lift_log, request_once. split; [reflexivity | apply Hcfg]. }
  assert (Hcre : forall name parent template c, name <> "" ->
       exists body cfg,
         snd (MAIAClient.create_namespace model_validate self
                (mkCreateNamespaceInput name parent template (Some c)) tr log)
         = (log ++ [mkRequest (MAIAClient._client self) "POST" "/v1/namespaces"
                      (Some (VDict body)) None])%list
         /\ body !! "config" = Some (VDict cfg)
         /\ cfg !! "inherit_from_parent" = Some (VBool (nc_inherit_from_parent c))).
  { intros name parent template c Hn. apply str_truthy_true in Hn.
    eexists. exists (dump_NamespaceConfig c).
    unfold MAIAClient.create_namespace. simpl. rewrite Hn; cbn [negb].
    rewrite bind_lift_log, request_once. split; [reflexivity|].
    split; [apply lookup_insert_eq | apply Hcfg]. }
  split; [exact Hcfg|].
  split; [intros; apply Hcfg|].
  split; [reflexivity|].
  split; [exact Hupd|].
  split; [intros id tb mm rd at' cs Hid;
          exact (Hupd id (mkUpdateNamespaceInput
                            (NamespaceConfig_init tb mm rd at' None cs)) Hid)|].
  split; [exact Hcre|].
  intros name parent template tb mm rd at' cs Hn.
  exact (Hcre name parent template (NamespaceConfig_init tb mm rd at' None cs) Hn).
Qed.

(** X15 at [update_namespace("ns", UpdateNamespaceInput(config=NamespaceConfig(
    token_budget=4000)))]: the flag goes out as [false]. *)
Lemma inherit_from_parent_always_sent_witness :
  exists cfg,
    snd (MAIAClient.update_namespace Sample.model_validate Sample.client "ns"
           (mkUpdateNamespaceInput
              (NamespaceConfig_init (Some 4000) None None None None None))
           (Sample.always Sample.created) [])
    = [mkRequest (MAIAClient._client Sample.client) "PUT"
         ("/v1/namespaces/" ++ Urllib.quote "ns" "")
         (Some (VDict {["config" := VDict cfg]})) None]
    /\ cfg !! "inherit_from_parent" = Some (VBool false).
Proof.
  exact (proj1 (proj2 (proj2 (proj2 (proj2
    (inherit_from_parent_always_sent Sample.model_validate Sample.client
       (Sample.always Sample.created) [])))))
    "ns" (Some 4000) None None None None ltac:(discriminate)).
Defined.

(** X16. How an [APIError] raised by [_request] prints.  From a body that
    is not JSON it prints as the body text, or "HTTP <status>" when the text
    is empty; from a JSON object with a string [error] and a non-empty
    string [code] it prints as "<error> (<code>)"; with a string [error]
    and no [code] it prints as the error alone. *)
Theorem raised_APIError_text
    (self : MAIAClient.t) (method path : string) (body : option Any)
    (params : option (gmap string Any)) (tr : Transport) (log : list Request)
    (r : Response)
    (Hanswer : tr log (mkRequest (MAIAClient._client self) method path body params)
               = inr r)
    (Hstatus : Http.status_code r >= 400) :
  (json r = None ->
     exists d,
       fst (MAIAClient._request self method path body params tr log)
       = inl (ExAPIError d)
       /\ __str__ d = Some (if str_truthy (text r) then text r
                            else "HTTP " ++ str_of_int (Http.status_code r)))
  /\ (forall o err c,
       json r = Some (VDict o) -> o !! "error" = Some (VStr err) ->
       o !! "code" = Some (VStr c) -> c <> "" ->
       exists d,
         fst (MAIAClient._request self method path body params tr log)
         = inl (ExAPIError d)
         /\ __str__ d = Some (err ++ " (" ++ c ++ ")"))
  /\ (forall o err,
       json r = Some (VDict o) -> o !! "error" = Some (VStr err) ->
       o !! "code" = None ->
       exists d,
         fst (MAIAClient._request self method path body params tr log)
         = inl (ExAPIError d)
         /\ __str__ d = Some err).
Proof.
  rewrite request_run, Hanswer. simpl.
  rewrite (proj2 (Z.geb_le _ _)) by lia.
  split; [|split].
  - intros ->. eexists. split; reflexivity.
  - intros o err c -> He Hc Hne. apply str_truthy_true in Hne.
    eexists. split; [reflexivity|].
    unfold __str__, dict_get, dict_get_default; simpl. rewrite He, Hc; simpl.
    rewrite Hne. reflexivity.
  - intros o err -> He Hc. eexists. split; [reflexivity|].
    unfold __str__, dict_get, dict_get_default; simpl. rewrite He, Hc. reflexivity.
Qed.

(** X16 at the sample 502 answer with an HTML body. *)
Lemma raised_APIError_text_witness :
  exists d,
    fst (MAIAClient._request Sample.client "GET" "/v1/memories/mem-123" None None
           (Sample.always Sample.bad_gateway_html) [])
    = inl (ExAPIError d)
    /\ __str__ d = Some "<html>".
Proof.
  exact (proj1 (raised_APIError_text Sample.client "GET" "/v1/memories/mem-123" None None
                  (Sample.always Sample.bad_gateway_html) [] Sample.bad_gateway_html
                  eq_refl ltac:(simpl; lia)) eq_refl).
Defined.

(** X17. Listing options whose [limit] and [offset] are each unset or zero
    change nothing: [list_namespaces] and [list_namespace_memories] behave
    as they do without options, sending no query parameters. *)
Theorem zero_pagination_is_no_pagination
    (model_validate : Model -> Any -> Exn + Any) (self : MAIAClient.t)
    (tr : Transport) (log : list Request) (options : ListOptions)
    (Hlimit : lo_limit options = None \/ lo_limit options = Some 0)
    (Hoffset : lo_offset options = None \/ lo_offset options = Some 0) :
  MAIAClient.list_namespaces model_validate self (Some options) tr log
  = MAIAClient.list_namespaces model_validate self None tr log
  /\ (forall namespace,
      MAIAClient.list_namespace_memories model_validate self namespace (Some options) tr log
      = MAIAClient.list_namespace_memories model_validate self namespace None tr log)
  /\ snd (MAIAClient.list_namespaces model_validate self (Some options) tr log)
     = (log ++ [mkRequest (MAIAClient._client self) "GET" "/v1/namespaces" None None])%list.
Proof.
  assert (Hl : int_truthy (lo_limit options) = false)
    by (destruct Hlimit as [-> | ->]; reflexivity).
  assert (Ho : int_truthy (lo_offset options) = false)
    by (destruct Hoffset as [-> | ->]; reflexivity).
  unfold MAIAClient.list_namespaces, MAIAClient.list_namespace_memories.
  cbv zeta. rewrite Hl, Ho.
  split; [reflexivity|]. split; [reflexivity|].
  rewrite bind_lift_log, request_once, dict_or_None_empty. reflexivity.
Qed.

(** X17 at [ListOptions(limit=0)]. *)
Lemma zero_pagination_is_no_pagination_witness :
  snd (MAIAClient.list_namespaces Sample.model_validate Sample.client
         (Some (mkListOptions (Some 0) None)) (Sample.always Sample.created) [])
  = [mkRequest (MAIAClient._client Sample.client) "GET" "/v1/namespaces" None None].
Proof.
  exact (proj2 (proj2 (zero_pagination_is_no_pagination Sample.model_validate
    Sample.client (Sample.always Sample.created) [] (mkListOptions (Some 0) None)
    (or_intror eq_refl) (or_introl eq_refl)))).
Defined.

(** X18. The convenience wrappers are checked like the operations they
    call: [remember] with an empty namespace raises [ValidationError] for
    "namespace", with a namespace and an empty content for "content";
    [recall] with an empty query for "query"; [forget] with an empty id for
    "id"; none of them sends a request then. *)
Theorem wrappers_check_required_fields
    (model_validate : Model -> Any -> Exn + Any) (self : MAIAClient.t)
    (tr : Transport) (log : list Request) :
  (forall content,
      MAIAClient.remember model_validate self "" content tr log
      = (inl (ExValidationError "namespace" "namespace is required"), log))
  /\ (forall namespace, namespace <> "" ->
      MAIAClient.remember model_validate self namespace "" tr log
      = (inl (ExValidationError "content" "content is required"), log))
  /\ (forall namespace token_budget system_prompt min_score include_scores,
      MAIAClient.recall model_validate self "" namespace token_budget system_prompt
        min_score include_scores tr log
      = (inl (ExValidationError "query" "query is required"), log))
  /\ MAIAClient.forget self "" tr log
     = (inl (ExValidationError "id" "id is required"), log).
Proof.
  repeat split.
  intros namespace Hn. apply str_truthy_true in Hn.
  unfold MAIAClient.remember, MAIAClient.create_memory. simpl. rewrite Hn. reflexivity.
Qed.

(** X19. The operations without a required field always reach the
    transport, with one request each: [health] a GET of "/health", [ready]
    a GET of "/ready", [stats] a GET of "/v1/stats", none with a body or
    query parameters; [search_memories], for every input, a POST to
    "/v1/memories/search" whose body is the dump of the input; and
    [list_namespaces] a GET of "/v1/namespaces" without a body. *)
Theorem unchecked_operations_always_send
    (model_validate : Model -> Any -> Exn + Any) (self : MAIAClient.t)
    (tr : Transport) (log : list Request) :
  snd (MAIAClient.health model_validate self tr log)
  = (log ++ [mkRequest (MAIAClient._client self) "GET" "/health" None None])%list
  /\ snd (MAIAClient.ready self tr log)
     = (log ++ [mkRequest (MAIAClient._client self) "GET" "/ready" None None])%list
  /\ snd (MAIAClient.stats model_validate self tr log)
     = (log ++ [mkRequest (MAIAClient._client self) "GET" "/v1/stats" None None])%list
  /\ (forall input,
      snd (MAIAClient.search_memories model_validate self (Some input) tr log)
      = (log ++ [mkRequest (MAIAClient._client self) "POST" "/v1/memories/search"
                   (Some (VDict (dump_SearchMemoriesInput input))) None])%list)
  /\ (forall options, exists params,
      snd (MAIAClient.list_namespaces model_validate self options tr log)
      = (log ++ [mkRequest (MAIAClient._client self) "GET" "/v1/namespaces"
                   None params])%list).
Proof.
  unfold MAIAClient.health, MAIAClient.ready, MAIAClient.stats,
    MAIAClient.search_memories, MAIAClient.list_namespaces.
  repeat split; intros; cbv zeta;
    rewrite ?bind_lift_log, ?bind_ret_log, ?request_once; try reflexivity.
  eexists; reflexivity.
Qed.

(** X20. Calls are not deduplicated: deleting the same memory twice sends
    the same DELETE twice, the second one after the first in the log, and
    the outcome of the pair is the outcome of the second call; when the
    first call fails, its error ends the pair after one request. *)
Theorem repeated_delete_sends_again
    (self : MAIAClient.t) (tr : Transport) (log : list Request) (id : string)
    (Hid : id <> "") :
  let req := mkRequest (MAIAClient._client self) "DELETE"
               ("/v1/memories/" ++ quote id "") None None in
  let twice := (_ <- MAIAClient.delete_memory self id ;;
                MAIAClient.delete_memory self id)%io in
  (forall v, fst (MAIAClient.delete_memory self id tr log) = inr v ->
     snd (twice tr log) = (log ++ [req; req])%list
     /\ fst (twice tr log)
        = fst (MAIAClient.delete_memory self id tr (log ++ [req])%list))
  /\ (forall e, fst (MAIAClient.delete_memory self id tr log) = inl e ->
     twice tr log = (inl e, (log ++ [req])%list)).
Proof.
  cbv zeta. apply str_truthy_true in Hid.
  assert (Hlog : forall l, snd (MAIAClient.delete_memory self id tr l)
                 = (l ++ [mkRequest (MAIAClient._client self) "DELETE"
                            ("/v1/memories/" ++ quote id "") None None])%list).
  { intros l. unfold MAIAClient.delete_memory. rewrite Hid; cbn [negb].
    rewrite bind_ret_log, request_once. reflexivity. }
  split.
  - intros v Hv. unfold bind at 1 2.
    pose proof (Hlog log) as H1.
    destruct (MAIAClient.delete_memory self id tr log) as [[e|x] l1]; [discriminate|].
    simpl in H1. subst l1. rewrite Hlog, <- app_assoc. split; reflexivity.
  - intros e He. unfold bind at 1.
    pose proof (Hlog log) as H1.
    destruct (MAIAClient.delete_memory self id tr log) as [[e'|x] l1]; [|discriminate].
    simpl in H1, He. injection He as ->. subst l1. reflexivity.
Qed.

(** X20 at deleting "mem-123" twice against a server that answers 204 each
    time. *)
Lemma repeated_delete_sends_again_witness :
  snd ((_ <- MAIAClient.delete_memory Sample.client "mem-123" ;;
        MAIAClient.delete_memory Sample.client "mem-123")%io
         (Sample.always Sample.no_content) [])
  = [mkRequest (MAIAClient._client Sample.client) "DELETE" "/v1/memories/mem-123"
       None None;
     mkRequest (MAIAClient._client Sample.client) "DELETE" "/v1/memories/mem-123"
       None None].
Proof.
  exact (proj1 (proj1 (repeated_delete_sends_again Sample.client
                  (Sample.always Sample.no_content) [] "mem-123" ltac:(discriminate))
                VNone eq_refl)).
Defined.

End Extras.
